(** * kfcactivity: the activity dashboard of [script.js]

    A shallow embedding of the aggregation and rendering code of the
    dashboard, and the properties its specification states about it.

    Conventions of the embedding.
    - A JavaScript number that holds an integer (epoch seconds, epoch
      milliseconds, a day count) is a [Z].  The quotient
      [minutesAgo = (Date.now() - t * 1000) / 60000] is a rational [Q];
      the number [NaN] that arithmetic on [undefined] produces is [None].
    - [new Date(snapshot.timestamp)] is represented by its time value, the
      milliseconds since the epoch: a snapshot carries that [Z].
    - An object used as a dictionary ([membersData], [snapshot.members],
      [summary]) is a [gmap string _]; a missing key reads as [undefined],
      here [None].  Member ids are taken not to be names of properties of
      [Object.prototype].
    - The host's local calendar ([Date.prototype.setDate],
      [toLocaleDateString]) is a parameter, the class [Host]; [utc_host] is
      the host whose time zone is UTC.
    - The clock is read once for one rendering pass: the reading is the
      argument [now].  The selector [#timeRange] holds a parsed integer.
    - The two datasets have the shape the tracker writes, except that the
      value a snapshot holds for a member may be any JSON primitive in place
      of the record. *)

From stdpp Require Import base option list gmap strings sorting.
From Stdlib Require Import ZArith QArith Lia.

#[local] Open Scope string_scope.
#[local] Open Scope list_scope.
#[local] Open Scope Z_scope.

(** ** Data model *)

(** The per-member record a snapshot holds. *)
Record ActivityRecord := {
  last_action_timestamp : Z;
  last_action_relative : string;
  status : string
}.

(** What [snapshot.members[userId]] can be once the JSON text is parsed: a
    primitive, or a per-member record. *)
Inductive JsValue :=
| JNull
| JBool (b : bool)
| JNum (n : Z)
| JStr (s : string)
| JRecord (r : ActivityRecord).

Record Snapshot := {
  timestamp : Z;
  members : gmap string JsValue
}.

Record Member := {
  name : string;
  level : Z;
  days_in_faction : Z
}.

(** [activityData]: [{}] before and without a load, [{snapshots: [...]}]
    after one. *)
Record ActivityData := {
  snapshots : option (list Snapshot)
}.

(** The object [{timestamp: snapshot.timestamp, ...snapshot.members[userId]}]:
    the snapshot's time and the spread value.  Spreading a primitive adds no
    named field. *)
Record Activity := {
  act_timestamp : Z;
  act_spread : JsValue
}.

(** The two module-level variables (lines 5-6). *)
Record Globals := {
  activityData : ActivityData;
  membersData : gmap string Member
}.

Record SummaryEntry := {
  s_name : string;
  s_level : Z;
  s_days_in_faction : Z;
  last_seen_timestamp : option Z;
  last_seen_relative : option string;
  days_active : nat;
  total_polls : nat
}.

#[global] Instance ActivityRecord_eq_dec : EqDecision ActivityRecord.
Proof. solve_decision. Defined.
#[global] Instance JsValue_eq_dec : EqDecision JsValue.
Proof. solve_decision. Defined.
#[global] Instance Activity_eq_dec : EqDecision Activity.
Proof. solve_decision. Defined.

(** ** JavaScript primitives *)

(** [ToBoolean] on the values of [JsValue]. *)
Definition truthy (v : JsValue) : bool :=
  match v with
  | JNull => false
  | JBool b => b
  | JNum n => negb (n =? 0)
  | JStr s => negb (String.eqb s "")
  | JRecord _ => true
  end.

(** [activity.last_action_timestamp]: [undefined] unless a record was
    spread. *)
Definition act_last_action_timestamp (a : Activity) : option Z :=
  match act_spread a with
  | JRecord r => Some (last_action_timestamp r)
  | _ => None
  end.

Definition act_last_action_relative (a : Activity) : option string :=
  match act_spread a with
  | JRecord r => Some (last_action_relative r)
  | _ => None
  end.

Definition act_status (a : Activity) : option string :=
  match act_spread a with
  | JRecord r => Some (status r)
  | _ => None
  end.

(** [x > 0] where [x] may be [undefined]: [undefined > 0] is [false]. *)
Definition js_gt0 (x : option Z) : bool :=
  match x with
  | Some n => 0 <? n
  | None => false
  end.

(** [x < c] on a number that may be [NaN]: every comparison with [NaN] is
    [false]. *)
Definition js_lt (x : option Q) (c : Q) : bool :=
  match x with
  | Some q => if Qlt_le_dec q c then true else false
  | None => false
  end.

(** ** The host: local calendar *)

Class Host := {
  (** the strings [toLocaleDateString] returns *)
  DateString : Type;
  DateString_eq_dec :: EqDecision DateString;
  (** [new Date(ms).toLocaleDateString()] *)
  toLocaleDateString : Z → DateString;
  (** the time value of [d] after [d.setDate(d.getDate() - days)], [d]
      holding the time value [ms] before *)
  setDate_back : Z → Z → Z
}.

Definition ms_per_day : Z := 1000 * 60 * 60 * 24.

(** A host in UTC: a calendar day is 86400000 ms, and the date string is
    identified with the number of the day it names. *)
#[global] Instance utc_host : Host := {|
  DateString := Z;
  toLocaleDateString ms := ms `div` ms_per_day;
  setDate_back ms days := ms - days * ms_per_day
|}.

(** A [Set] of date strings, as the list of its elements in insertion
    order. *)
Definition set_add `{EqDecision A} (x : A) (s : list A) : list A :=
  if decide (x ∈ s) then s else s ++ [x].

(** ** The aggregator *)

Section aggregator.
Context `{!Host}.

(** One turn of the loop over [snapshots] (lines 69-77). *)
Definition push_activity (cutoffDate : Z) (userId : string)
    (memberActivity : list Activity) (snapshot : Snapshot) : list Activity :=
  if timestamp snapshot <? cutoffDate then memberActivity
  else match members snapshot !! userId with
       | Some v =>
           if truthy v
           then memberActivity ++
                  [{| act_timestamp := timestamp snapshot; act_spread := v |}]
           else memberActivity
       | None => memberActivity
       end.

Definition collectActivity (cutoffDate : Z) (userId : string)
    (snaps : list Snapshot) : list Activity :=
  foldl (push_activity cutoffDate userId) [] snaps.

(** One turn of the loop over [memberActivity] (lines 83-88). *)
Definition add_active_date (activeDates : list DateString) (activity : Activity)
    : list DateString :=
  if js_gt0 (act_last_action_timestamp activity)
  then match act_last_action_timestamp activity with
       | Some t => set_add (toLocaleDateString (t * 1000)) activeDates
       | None => activeDates
       end
  else activeDates.

Definition activeDates (memberActivity : list Activity) : list DateString :=
  foldl add_active_date [] memberActivity.

(** The body of the loop over [membersData] (lines 66-99). *)
Definition summarize_member (snaps : list Snapshot) (cutoffDate : Z)
    (userId : string) (member : Member)
    (summary : gmap string SummaryEntry) : gmap string SummaryEntry :=
  let memberActivity := collectActivity cutoffDate userId snaps in
  match last memberActivity with
  | Some mostRecent =>
      <[userId := {|
          s_name := name member;
          s_level := level member;
          s_days_in_faction := days_in_faction member;
          last_seen_timestamp := act_last_action_timestamp mostRecent;
          last_seen_relative := act_last_action_relative mostRecent;
          days_active := length (activeDates memberActivity);
          total_polls := length memberActivity
        |}]> summary
  | None => summary
  end.

Definition getActivitySummary (g : Globals) (now : Z) (days : Z)
    : gmap string SummaryEntry :=
  let snaps := default [] (snapshots (activityData g)) in
  let cutoffDate := setDate_back now days in
  map_fold (summarize_member snaps cutoffDate) ∅ (membersData g).

End aggregator.

(** ** The page: DOM, console, and the monad of the event handlers *)

(** [innerHTML] of [#membersTable]: what the page is served with, one of the
    placeholder rows, or the rows of [renderMembers]. *)
Record Row := {
  row_userId : string;
  row_name : string;
  row_last_seen_relative : option string;
  row_days_active : nat;
  row_statusClass : string;
  row_statusText : string
}.

Inductive TableContent :=
| TableStatic
| TablePlaceholder (msg : string)
| TableRows (rows : list Row).

(** [innerHTML] of [.summary]: the four cards. *)
Inductive SummaryPanel :=
| PanelStatic
| PanelDashes
| PanelStats (totalMembers : nat) (active24h : nat) (loggedDays : Z) (lastPoll : Z).

Inductive LastUpdated :=
| UpdatedStatic
| UpdatedLoading
| UpdatedAt (lastPoll : Z).

Record TimelineEntry := {
  te_time : Z;
  te_relative : option string;
  te_status : option string
}.

Inductive TimelineContent :=
| TimelineStatic
| TimelinePlaceholder (msg : string)
| TimelineEntries (entries : list TimelineEntry).

Record Dom := {
  membersTable : TableContent;
  summaryPanel : SummaryPanel;
  lastUpdated : LastUpdated;
  timeRange : Z;
  memberName : string;
  timeline : TimelineContent;
  activityDetail_hidden : bool
}.

Inductive LogLevel := Warn | Error.

Record World := {
  globals : Globals;
  dom : Dom;
  console : list (LogLevel * string)
}.

(** A statement completes normally or throws; the state it reached is kept
    either way. *)
Inductive Outcome (A : Type) :=
| Normal (a : A)
| Throw (e : string).
Arguments Normal {A} a.
Arguments Throw {A} e.

Definition M (A : Type) : Type := World → Outcome A * World.

#[global] Instance M_ret : MRet M := λ A a w, (Normal a, w).
#[global] Instance M_bind : MBind M := λ A B f m w,
  match m w with
  | (Normal a, w') => f a w'
  | (Throw e, w') => (Throw e, w')
  end.
#[global] Instance M_throw : MThrow string M := λ A e w, (Throw e, w).

(** [try { body } catch (error) { handler }] *)
Definition try_catch {A} (body : M A) (handler : string → M A) : M A :=
  λ w, match body w with
       | (Normal a, w') => (Normal a, w')
       | (Throw e, w') => handler e w'
       end.

Definition modify (f : World → World) : M unit := λ w, (Normal tt, f w).
Definition gets {A} (f : World → A) : M A := λ w, (Normal (f w), w).

Definition set_dom (f : Dom → Dom) (w : World) : World :=
  {| globals := globals w; dom := f (dom w); console := console w |}.

Definition set_membersTable (c : TableContent) : M unit :=
  modify (set_dom (λ d,
    {| membersTable := c; summaryPanel := summaryPanel d;
       lastUpdated := lastUpdated d; timeRange := timeRange d;
       memberName := memberName d; timeline := timeline d;
       activityDetail_hidden := activityDetail_hidden d |})).

Definition set_summaryPanel (p : SummaryPanel) : M unit :=
  modify (set_dom (λ d,
    {| membersTable := membersTable d; summaryPanel := p;
       lastUpdated := lastUpdated d; timeRange := timeRange d;
       memberName := memberName d; timeline := timeline d;
       activityDetail_hidden := activityDetail_hidden d |})).

Definition set_lastUpdated (u : LastUpdated) : M unit :=
  modify (set_dom (λ d,
    {| membersTable := membersTable d; summaryPanel := summaryPanel d;
       lastUpdated := u; timeRange := timeRange d;
       memberName := memberName d; timeline := timeline d;
       activityDetail_hidden := activityDetail_hidden d |})).

Definition set_memberName (n : string) : M unit :=
  modify (set_dom (λ d,
    {| membersTable := membersTable d; summaryPanel := summaryPanel d;
       lastUpdated := lastUpdated d; timeRange := timeRange d;
       memberName := n; timeline := timeline d;
       activityDetail_hidden := activityDetail_hidden d |})).

Definition set_timeline (t : TimelineContent) : M unit :=
  modify (set_dom (λ d,
    {| membersTable := membersTable d; summaryPanel := summaryPanel d;
       lastUpdated := lastUpdated d; timeRange := timeRange d;
       memberName := memberName d; timeline := t;
       activityDetail_hidden := activityDetail_hidden d |})).

Definition set_activityDetail_hidden (b : bool) : M unit :=
  modify (set_dom (λ d,
    {| membersTable := membersTable d; summaryPanel := summaryPanel d;
       lastUpdated := lastUpdated d; timeRange := timeRange d;
       memberName := memberName d; timeline := timeline d;
       activityDetail_hidden := b |})).

Definition set_activityData (a : ActivityData) : M unit :=
  modify (λ w,
    {| globals := {| activityData := a; membersData := membersData (globals w) |};
       dom := dom w; console := console w |}).

Definition set_membersData (m : gmap string Member) : M unit :=
  modify (λ w,
    {| globals := {| activityData := activityData (globals w); membersData := m |};
       dom := dom w; console := console w |}).

Definition console_log (l : LogLevel) (msg : string) : M unit :=
  modify (λ w,
    {| globals := globals w; dom := dom w; console := console w ++ [(l, msg)] |}).

(** What [await fetch(url)] does: the promise rejects, or it resolves to a
    response with its [ok] flag and what [await response.json()] does. *)
Record Response (A : Type) := {
  ok : bool;
  json : Outcome A
}.
Arguments ok {A} r.
Arguments json {A} r.

Inductive Fetch (A : Type) :=
| FetchRejects (e : string)
| FetchResolves (r : Response A).
Arguments FetchRejects {A} e.
Arguments FetchResolves {A} r.

Definition await_fetch {A} (f : Fetch A) : M (Response A) :=
  match f with
  | FetchRejects e => mthrow e
  | FetchResolves r => mret r
  end.

Definition await_json {A} (r : Response A) : M A :=
  match json r with
  | Normal a => mret a
  | Throw e => mthrow e
  end.

(** ** The renderer *)

Definition error_loading_msg : string := "Error loading data. Run tracker first.".
Definition no_data_msg : string := "No data yet. Tracker will populate this.".
Definition no_members_msg : string := "No members found".
Definition no_activity_msg : string := "No activity data".

(** [(Date.now() - last_seen_timestamp * 1000) / 60000]; [NaN] when the
    timestamp is [undefined]. *)
Definition minutesAgo (now : Z) (last_seen : option Z) : option Q :=
  match last_seen with
  | Some t => Some (inject_Z (now - t * 1000) / inject_Z 60000)%Q
  | None => None
  end.

(** [statusClass] and [statusText] (lines 148-157). *)
Definition presence (minutes : option Q) : string * string :=
  if js_lt minutes (inject_Z 60) then ("status-active", "Online")
  else if js_lt minutes (inject_Z 1440) then ("status-warning", "Today")
  else ("status-inactive", "Offline").

(** The comparator [(a, b) => b[1].last_seen_timestamp - a[1].last_seen_timestamp]
    puts [a] no later than [b] when it is not positive; a [NaN] result counts
    as zero. *)
Definition seen_no_later (a b : string * SummaryEntry) : Prop :=
  match last_seen_timestamp a.2, last_seen_timestamp b.2 with
  | Some x, Some y => y ≤ x
  | _, _ => True
  end.

#[global] Instance seen_no_later_dec : RelDecision seen_no_later.
Proof.
  intros a b. unfold seen_no_later.
  destruct (last_seen_timestamp a.2), (last_seen_timestamp b.2); apply _.
Defined.

Definition member_row (now : Z) (e : string * SummaryEntry) : Row :=
  let '(userId, data) := e in
  let status := presence (minutesAgo now (last_seen_timestamp data)) in
  {| row_userId := userId;
     row_name := s_name data;
     row_last_seen_relative := last_seen_relative data;
     row_days_active := days_active data;
     row_statusClass := status.1;
     row_statusText := status.2 |}.

Definition member_rows (summary : gmap string SummaryEntry) (now : Z) : list Row :=
  let sorted := merge_sort seen_no_later (map_to_list summary) in
  member_row now <$> sorted.

Definition renderMembers (summary : gmap string SummaryEntry) (now : Z) : M unit :=
  match member_rows summary now with
  | [] => set_membersTable (TablePlaceholder no_members_msg)
  | rows => set_membersTable (TableRows rows)
  end.

Definition updateStats : M unit :=
  set_summaryPanel PanelDashes;;
  set_lastUpdated UpdatedLoading.

(** [snapshots[snapshots.length - 1].timestamp] throws a [TypeError] on an
    empty array. *)
Definition renderStats (summary : gmap string SummaryEntry)
    (snaps : list Snapshot) (now : Z) : M unit :=
  match last snaps, head snaps with
  | Some lastSnap, Some firstSnap =>
      let lastPoll := timestamp lastSnap in
      let active24h :=
        length (filter
          (λ m, js_lt (minutesAgo now (last_seen_timestamp m)) (inject_Z 1440))
          (map_to_list summary).*2) in
      let firstDate := timestamp firstSnap in
      let lastDate := timestamp lastSnap in
      let loggedDays := (lastDate - firstDate) `div` (1000 * 60 * 60 * 24) + 1 in
      set_summaryPanel (PanelStats (size summary) active24h loggedDays lastPoll);;
      set_lastUpdated (UpdatedAt lastPoll)
  | _, _ => mthrow "TypeError"
  end.

Section pages.
Context `{!Host}.

Definition renderDashboard (now : Z) : M unit :=
  snaps ← gets (λ w, default [] (snapshots (activityData (globals w))));
  if decide (length snaps = 0%nat) then
    set_membersTable (TablePlaceholder no_data_msg);;
    updateStats
  else
    days ← gets (λ w, timeRange (dom w));
    summary ← gets (λ w, getActivitySummary (globals w) now days);
    renderStats summary snaps now;;
    renderMembers summary now.

(** The array [memberActivity] of [showActivity] after [reverse()]
    (lines 201-218). *)
Definition showActivity_memberActivity (g : Globals) (now daysRange : Z)
    (userId : string) : list Activity :=
  let snaps := default [] (snapshots (activityData g)) in
  let cutoffDate := setDate_back now daysRange in
  let memberActivity :=
    foldl (λ memberActivity snapshot,
             if timestamp snapshot <? cutoffDate then memberActivity
             else match members snapshot !! userId with
                  | Some v =>
                      if truthy v
                      then memberActivity ++
                             [{| act_timestamp := timestamp snapshot;
                                 act_spread := v |}]
                      else memberActivity
                  | None => memberActivity
                  end) [] snaps in
  reverse memberActivity.

Definition timeline_entry (activity : Activity) : TimelineEntry :=
  {| te_time := act_timestamp activity;
     te_relative := act_last_action_relative activity;
     te_status := act_status activity |}.

Definition showActivity (userId name : string) (now : Z) : M unit :=
  daysRange ← gets (λ w, timeRange (dom w));
  memberActivity ←
    gets (λ w, showActivity_memberActivity (globals w) now daysRange userId);
  set_memberName name;;
  match timeline_entry <$> memberActivity with
  | [] => set_timeline (TimelinePlaceholder no_activity_msg)
  | html => set_timeline (TimelineEntries html)
  end;;
  set_activityDetail_hidden false.

Definition closeActivity : M unit := set_activityDetail_hidden true.


(** The loader (lines 12-34). *)
Definition initializeDashboard (activity_json : Fetch ActivityData)
    (members_json : Fetch (gmap string Member)) (now : Z) : M unit :=
  try_catch
    (activityResponse ← await_fetch activity_json;
     membersResponse ← await_fetch members_json;
     (if ok activityResponse
      then a ← await_json activityResponse; set_activityData a
      else console_log Warn "No activity data found");;
     (if ok membersResponse
      then m ← await_json membersResponse; set_membersData m
      else console_log Warn "No members data found");;
     renderDashboard now)
    (λ error,
       console_log Error "Error loading data:";;
       set_membersTable (TablePlaceholder error_loading_msg)).

End pages.

(** The state the script starts from: both variables hold [{}], nothing is
    logged, the page is as served. *)
Definition page_load (d : Dom) : World :=
  {| globals := {| activityData := {| snapshots := None |}; membersData := ∅ |};
     dom := d;
     console := [] |}.

(** ** Vocabulary of the specification *)

(** A snapshot is in the window when its time is not before the cutoff: the
    loops skip a snapshot on [new Date(snapshot.timestamp) < cutoffDate]. *)
Definition in_window (cutoffDate : Z) (s : Snapshot) : bool :=
  negb (timestamp s <? cutoffDate).

(** A snapshot contains a member when the test [snapshot.members[userId]]
    of the loops succeeds. *)
Definition has_member (s : Snapshot) (userId : string) : bool :=
  match members s !! userId with
  | Some v => truthy v
  | None => false
  end.

(** The activity a snapshot contributes to a member's in-window list. *)
Definition snapshot_activity (cutoffDate : Z) (userId : string) (s : Snapshot)
    : option Activity :=
  if in_window cutoffDate s && has_member s userId
  then v ← members s !! userId;
       Some {| act_timestamp := timestamp s; act_spread := v |}
  else None.

Definition value_last_action_timestamp (v : JsValue) : option Z :=
  act_last_action_timestamp {| act_timestamp := 0; act_spread := v |}.

Definition value_last_action_relative (v : JsValue) : option string :=
  act_last_action_relative {| act_timestamp := 0; act_spread := v |}.

(** Snapshots stored oldest first. *)
Definition oldest_first (snaps : list Snapshot) : Prop :=
  StronglySorted (λ a b, timestamp a ≤ timestamp b) snaps.

(** The summary entry the loop body writes for a member, if it writes one. *)
Definition member_entry `{!Host} (snaps : list Snapshot) (cutoffDate : Z)
    (userId : string) (member : Member) : option SummaryEntry :=
  summarize_member snaps cutoffDate userId member ∅ !! userId.

(** The dates the loop of lines 83-88 adds: those of the entries whose
    [last_action_timestamp] is a positive number. *)
Definition positive_date `{!Host} (a : Activity) : option DateString :=
  t ← act_last_action_timestamp a;
  if 0 <? t then Some (toLocaleDateString (t * 1000)) else None.

(** The window of the specification, [[now - d days, now]]. *)
Definition within_closed_window `{!Host} (now days : Z) (s : Snapshot) : Prop :=
  setDate_back now days ≤ timestamp s ≤ now.

(** The date of an entry whose [last_action_timestamp] is a number other
    than zero. *)
Definition nonzero_date `{!Host} (a : Activity) : option DateString :=
  t ← act_last_action_timestamp a;
  if t =? 0 then None else Some (toLocaleDateString (t * 1000)).

(** ** Vocabulary of the loader and of the selector *)

(** A fetch throws when its promise rejects, or when the response is [ok]
    and reading its JSON body throws. *)
Definition fetch_throws {A} (f : Fetch A) : bool :=
  match f with
  | FetchRejects _ => true
  | FetchResolves r =>
      ok r && match json r with Throw _ => true | Normal _ => false end
  end.

(** A fetch that completes with a response that is not [ok]. *)
Definition non_ok {A} (f : Fetch A) : bool :=
  match f with
  | FetchRejects _ => false
  | FetchResolves r => negb (ok r)
  end.

Definition is_error (l : LogLevel * string) : bool :=
  match l.1 with Error => true | Warn => false end.

(** The user picks a day count in [#timeRange]. *)
Definition select_timeRange (days : Z) (w : World) : World :=
  set_dom (λ d,
    {| membersTable := membersTable d; summaryPanel := summaryPanel d;
       lastUpdated := lastUpdated d; timeRange := days;
       memberName := memberName d; timeline := timeline d;
       activityDetail_hidden := activityDetail_hidden d |}) w.

(** The number the "Data Logged" card shows, if the panel shows numbers. *)
Definition data_logged (p : SummaryPanel) : option Z :=
  match p with
  | PanelStats _ _ loggedDays _ => Some loggedDays
  | _ => None
  end.

(** The snapshot with the member's key removed from its mapping. *)
Definition without_member (userId : string) (s : Snapshot) : Snapshot :=
  {| timestamp := timestamp s; members := delete userId (members s) |}.

(** The page holding other snapshots, all else the same. *)
Definition with_snapshots (snaps : list Snapshot) (w : World) : World :=
  {| globals := {| activityData := {| snapshots := Some snaps |};
                   membersData := membersData (globals w) |};
     dom := dom w;
     console := console w |}.

(** ** Sample pages

    One member, ["u1"], on a host in UTC; the clock reads
    2023-11-14T22:13:20Z. *)

Definition now0 : Z := 1700000000000.

Definition ann : Member :=
  {| name := "Ann"; level := 12; days_in_faction := 40 |}.

Definition seen_at (t : Z) : JsValue :=
  JRecord {| last_action_timestamp := t;
             last_action_relative := "5 minutes ago";
             status := "Okay" |}.

Definition poll (t : Z) (v : JsValue) : Snapshot :=
  {| timestamp := t; members := {[ "u1" := v ]} |}.

Definition page (snaps : list Snapshot) : Globals :=
  {| activityData := {| snapshots := Some snaps |};
     membersData := {[ "u1" := ann ]} |}.

(** A poll stamped one hour after the reading of the clock. *)
Definition page_ahead : Globals :=
  page [poll (now0 + 3600000) (seen_at 1699999000)].

(** Two polls an hour apart, the member last seen at the same second. *)
Definition page_two_polls : Globals :=
  page [poll (now0 - 7200000) (seen_at 1000);
        poll (now0 - 3600000) (seen_at 1000)].

Definition entry_two_polls : SummaryEntry :=
  {| s_name := "Ann"; s_level := 12; s_days_in_faction := 40;
     last_seen_timestamp := Some 1000;
     last_seen_relative := Some "5 minutes ago";
     days_active := 1; total_polls := 2 |}.

(** A poll that reports a [last_action_timestamp] before 1970. *)
Definition page_negative : Globals :=
  page [poll (now0 - 3600000) (seen_at (-86400))].

(** A summary whose one member was last seen 1000 seconds before the
    reading of the clock, and the row the table shows for it. *)
Definition entry_recent : SummaryEntry :=
  {| s_name := "Ann"; s_level := 12; s_days_in_faction := 40;
     last_seen_timestamp := Some 1699999000;
     last_seen_relative := Some "16 minutes ago";
     days_active := 1; total_polls := 1 |}.

Definition summary_recent : gmap string SummaryEntry := {[ "u1" := entry_recent ]}.

Definition row_recent : Row :=
  {| row_userId := "u1"; row_name := "Ann";
     row_last_seen_relative := Some "16 minutes ago";
     row_days_active := 1;
     row_statusClass := "status-active"; row_statusText := "Online" |}.

(** A member whose latest poll reports [last_action_timestamp] 0 after a
    poll that reported a time of action. *)
Definition page_zero_last : Globals :=
  page [poll (now0 - 7200000) (seen_at 1699990000);
        poll (now0 - 3600000) (seen_at 0)].

Definition entry_zero_last : SummaryEntry :=
  {| s_name := "Ann"; s_level := 12; s_days_in_faction := 40;
     last_seen_timestamp := Some 0;
     last_seen_relative := Some "5 minutes ago";
     days_active := 1; total_polls := 2 |}.

(** The page as served, the selector on 7 days. *)
Definition dom0 : Dom :=
  {| membersTable := TableStatic; summaryPanel := PanelStatic;
     lastUpdated := UpdatedStatic; timeRange := 7; memberName := "";
     timeline := TimelineStatic; activityDetail_hidden := true |}.

(** A poll whose mapping holds [null] for the member, between two polls
    that hold a record. *)
Definition polls_with_null : list Snapshot :=
  [poll (now0 - 7200000) (seen_at 1000);
   poll (now0 - 5400000) JNull;
   poll (now0 - 3600000) (seen_at 1000)].

(** Worlds holding the sample pages, nothing logged. *)
Definition world_of (g : Globals) : World :=
  {| globals := g; dom := dom0; console := [] |}.

(** The activity file is missing (404) and the members file loads. *)
Definition activity_missing : Fetch ActivityData :=
  FetchResolves {| ok := false; json := Throw "SyntaxError" |}.

Definition members_loaded : Fetch (gmap string Member) :=
  FetchResolves {| ok := true; json := Normal {[ "u1" := ann ]} |}.

(** The network is down. *)
Definition network_down {A} : Fetch A := FetchRejects "TypeError: Failed to fetch".

(** ** The search box *)

(** [name.includes(query)]: [query] occurs in [name] at some position. *)
Fixpoint includes (name query : string) : bool :=
  String.prefix query name ||
  match name with
  | EmptyString => false
  | String _ rest => includes rest query
  end.

(** [filterMembers] (lines 251-259): the [display] style it gives each
    [.member-row], in document order.  [toLowerCase] is the host's
    [String.prototype.toLowerCase] and [searchBox] the value of the search
    box; the text of a row's first cell is the member's name.  The
    placeholder rows do not carry the class [member-row]. *)
Definition filterMembers (toLowerCase : string → string) (searchBox : string)
    (table : TableContent) : list string :=
  let query := toLowerCase searchBox in
  match table with
  | TableRows rows =>
      (λ row, let name := toLowerCase (row_name row) in
              if includes name query then "" else "none") <$> rows
  | _ => []
  end.

(** [toLowerCase] on the letters A-Z, for strings of ASCII characters. *)
Definition ascii_toLowerCase (c : Ascii.ascii) : Ascii.ascii :=
  let n := Ascii.nat_of_ascii c in
  if (65 <=? n)%nat && (n <=? 90)%nat then Ascii.ascii_of_nat (n + 32) else c.

Fixpoint string_toLowerCase (s : string) : string :=
  match s with
  | EmptyString => EmptyString
  | String c rest => String (ascii_toLowerCase c) (string_toLowerCase rest)
  end.

(** ** More vocabulary *)

(** The datasets with other snapshots, or with other members. *)
Definition set_snapshots (snaps : list Snapshot) (g : Globals) : Globals :=
  {| activityData := {| snapshots := Some snaps |}; membersData := membersData g |}.

Definition set_members (m : gmap string Member) (g : Globals) : Globals :=
  {| activityData := activityData g; membersData := m |}.

(** The labels in the order Online, Today, Offline. *)
Definition status_rank (statusText : string) : nat :=
  if String.eqb statusText "Online" then 0
  else if String.eqb statusText "Today" then 1
  else 2.

(** The rows of a table; a placeholder has none. *)
Definition table_rows (t : TableContent) : list Row :=
  match t with
  | TableRows rows => rows
  | _ => []
  end.

(** The entries of a timeline; a placeholder has none. *)
Definition timeline_entries (t : TimelineContent) : list TimelineEntry :=
  match t with
  | TimelineEntries entries => entries
  | _ => []
  end.

(** More sample pages: a second member, a poll outside a 7-day window, and
    a table of two rows. *)
Definition bob : Member :=
  {| name := "Bob"; level := 30; days_in_faction := 7 |}.

Definition polls_month : list Snapshot :=
  [poll (now0 - 20 * ms_per_day) (seen_at 1698000000);
   poll (now0 - 7200000) (seen_at 1699990000);
   poll (now0 - 3600000) (seen_at 1699996000)].

Definition entry_month_7 : SummaryEntry :=
  {| s_name := "Ann"; s_level := 12; s_days_in_faction := 40;
     last_seen_timestamp := Some 1699996000;
     last_seen_relative := Some "5 minutes ago";
     days_active := 1; total_polls := 2 |}.

Definition entry_month_30 : SummaryEntry :=
  {| s_name := "Ann"; s_level := 12; s_days_in_faction := 40;
     last_seen_timestamp := Some 1699996000;
     last_seen_relative := Some "5 minutes ago";
     days_active := 2; total_polls := 3 |}.

Definition polls_stale : list Snapshot :=
  [poll (now0 - 20 * ms_per_day) (seen_at 1698000000);
   poll (now0 - 10 * ms_per_day) (seen_at 1698900000)].

Definition row_named (userId nm : string) : Row :=
  {| row_userId := userId; row_name := nm;
     row_last_seen_relative := Some "5 minutes ago"; row_days_active := 1;
     row_statusClass := "status-active"; row_statusText := "Online" |}.

Definition table_two_rows : TableContent :=
  TableRows [row_named "u1" "Ann"; row_named "u2" "Bob"].

(** A summary of two members, ["u1"] last seen in 1970 and ["u2"] last seen
    1000 seconds before the reading of the clock. *)
Definition summary_two : gmap string SummaryEntry :=
  {[ "u1" := entry_two_polls; "u2" := entry_recent ]}.

(** A poll taken a minute before the reading of the clock. *)
Definition poll_fresh : Snapshot := poll (now0 - 60000) (seen_at 1699999000).

(** ** Lists, sets of dates, sorted sequences *)

Section list_facts.
Context {A B : Type}.

Lemma length_omap_filter (f : A → option B) (l : list A) :
  length (omap f l) = length (filter (λ x, is_Some (f x)) l).
Proof.
  induction l as [|x l IH]; [done|].
  cbn [omap list_omap]. rewrite filter_cons.
  destruct (f x) as [y|] eqn:Hfx.
  - rewrite decide_True by eauto. cbn. by rewrite IH.
  - rewrite decide_False by (by intros [? ?]). exact IH.
Qed.

(** The last element of [omap f l] comes from the last position of [l]
    that [f] keeps. *)
Lemma last_omap_position (f : A → option B) (l : list A) (y : B) :
  last (omap f l) = Some y →
  ∃ i x, l !! i = Some x ∧ f x = Some y ∧
         ∀ j x', l !! j = Some x' → is_Some (f x') → (j ≤ i)%nat.
Proof.
  induction l as [|x l IH] using rev_ind; [done|].
  rewrite omap_app. cbn [omap list_omap].
  destruct (f x) as [y'|] eqn:Hfx.
  - rewrite last_snoc. intros [= ->].
    exists (length l), x. split_and!.
    + by rewrite lookup_app_r, Nat.sub_diag.
    + done.
    + intros j x' Hj _. apply lookup_lt_Some in Hj.
      rewrite length_app in Hj. cbn in Hj. lia.
  - rewrite app_nil_r. intros Hlast.
    destruct (IH Hlast) as (i & x0 & Hi & Hx0 & Hmax).
    exists i, x0. split_and!.
    + by apply lookup_app_l_Some.
    + done.
    + intros j x' Hj Hsome.
      destruct (decide (j < length l)%nat) as [Hlt|Hge].
      * rewrite lookup_app_l in Hj by done. eauto.
      * rewrite lookup_app_r in Hj by lia.
        destruct (j - length l)%nat eqn:Hd; cbn in Hj; [|done].
        injection Hj as <-. rewrite Hfx in Hsome. by destruct Hsome.
Qed.

Lemma StronglySorted_lookup_le (R : relation A) `{!Reflexive R}
    (l : list A) (i j : nat) (x y : A) :
  StronglySorted R l → l !! i = Some x → l !! j = Some y → (i ≤ j)%nat → R x y.
Proof.
  intros Hsort. revert i j.
  induction Hsort as [|a l Hsort IH Hall]; intros i j Hi Hj Hij; [done|].
  destruct i as [|i], j as [|j]; cbn in *; simplify_eq; try lia.
  - done.
  - rewrite Forall_forall in Hall. apply Hall.
    by eapply list_elem_of_lookup_2.
  - eapply IH; eauto with lia.
Qed.
End list_facts.

Section date_sets.
Context `{EqDecision A}.
Implicit Types (s l : list A).

Lemma elem_of_set_add x y s : y ∈ set_add x s ↔ y = x ∨ y ∈ s.
Proof.
  unfold set_add. case_decide.
  - split; [by right|]. by intros [->|?].
  - rewrite elem_of_app, list_elem_of_singleton. tauto.
Qed.

Lemma NoDup_set_add x s : NoDup s → NoDup (set_add x s).
Proof.
  intros Hs. unfold set_add. case_decide; [done|].
  apply NoDup_app. split_and!; [done| |apply NoDup_singleton].
  intros y Hy ->%list_elem_of_singleton. done.
Qed.

Lemma length_set_add x s : (length (set_add x s) ≤ S (length s))%nat.
Proof.
  unfold set_add. case_decide; [lia|]. rewrite length_app. cbn. lia.
Qed.
End date_sets.

(** ** The aggregator, loop by loop *)

Section aggregator_facts.
Context `{!Host}.
Implicit Types (snaps : list Snapshot) (s : Snapshot) (a : Activity)
  (userId : string) (cutoffDate : Z) (e : SummaryEntry).

Lemma snapshot_activity_Some cutoffDate userId s a :
  snapshot_activity cutoffDate userId s = Some a ↔
  in_window cutoffDate s = true ∧
  ∃ v, members s !! userId = Some v ∧ truthy v = true ∧
       a = {| act_timestamp := timestamp s; act_spread := v |}.
Proof.
  unfold snapshot_activity, has_member.
  destruct (in_window cutoffDate s); cbn.
  - destruct (members s !! userId) as [v|]; cbn.
    + destruct (truthy v) eqn:Hv; cbn.
      * split.
        -- intros [= <-]. eauto.
        -- intros (_ & v' & [= <-] & _ & ->). done.
      * split; [done|]. intros (_ & v' & [= <-] & Hv' & _). congruence.
    + split; [done|]. by intros (_ & v' & ? & _).
  - split; [done|]. by intros [? _].
Qed.

Lemma snapshot_activity_is_Some cutoffDate userId s :
  is_Some (snapshot_activity cutoffDate userId s) ↔
  in_window cutoffDate s = true ∧ has_member s userId = true.
Proof.
  unfold snapshot_activity, has_member.
  destruct (in_window cutoffDate s); cbn.
  - destruct (members s !! userId) as [v|]; cbn.
    + destruct (truthy v); cbn.
      * split; eauto.
      * split; [by intros [??]|by intros [_ ?]].
    + split; [by intros [??]|by intros [_ ?]].
  - split; [by intros [??]|by intros [? _]].
Qed.

Lemma push_activity_snoc cutoffDate userId (acc : list Activity) s :
  push_activity cutoffDate userId acc s =
  acc ++ option_list (snapshot_activity cutoffDate userId s).
Proof.
  unfold push_activity, snapshot_activity, in_window, has_member.
  destruct (timestamp s <? cutoffDate); cbn; [by rewrite app_nil_r|].
  destruct (members s !! userId) as [v|]; cbn; [|by rewrite app_nil_r].
  destruct (truthy v); cbn; [done|by rewrite app_nil_r].
Qed.

Lemma foldl_push_activity cutoffDate userId (acc : list Activity) snaps :
  foldl (push_activity cutoffDate userId) acc snaps =
  acc ++ omap (snapshot_activity cutoffDate userId) snaps.
Proof.
  revert acc. induction snaps as [|s snaps IH]; intros acc; cbn.
  - by rewrite app_nil_r.
  - rewrite IH, push_activity_snoc, <-app_assoc. f_equal.
    by destruct (snapshot_activity cutoffDate userId s).
Qed.

(** The loop of lines 69-77 keeps, in order, the in-window snapshots that
    contain the member. *)
Lemma collectActivity_omap cutoffDate userId snaps :
  collectActivity cutoffDate userId snaps =
  omap (snapshot_activity cutoffDate userId) snaps.
Proof. unfold collectActivity. by rewrite foldl_push_activity. Qed.

Lemma length_collectActivity cutoffDate userId snaps :
  length (collectActivity cutoffDate userId snaps) =
  length (filter (λ s, in_window cutoffDate s = true ∧ has_member s userId = true)
            snaps).
Proof.
  rewrite collectActivity_omap, length_omap_filter.
  f_equal. apply list_filter_iff. intros s.
  apply snapshot_activity_is_Some.
Qed.

Lemma add_active_date_positive (dates : list DateString) a :
  add_active_date dates a =
  match positive_date a with
  | Some d => set_add d dates
  | None => dates
  end.
Proof.
  unfold add_active_date, positive_date, js_gt0.
  destruct (act_last_action_timestamp a) as [t|]; cbn; [|done].
  by destruct (0 <? t).
Qed.

Lemma foldl_add_active_date (dates : list DateString) (l : list Activity) :
  NoDup dates →
  NoDup (foldl add_active_date dates l) ∧
  (∀ d, d ∈ foldl add_active_date dates l ↔ d ∈ dates ∨ d ∈ omap positive_date l) ∧
  (length (foldl add_active_date dates l) ≤ length dates + length l)%nat.
Proof.
  revert dates. induction l as [|a l IH]; intros dates Hnd; cbn [foldl].
  - split_and!; [done| |lia]. intros d. rewrite elem_of_nil. tauto.
  - rewrite add_active_date_positive. cbn [omap list_omap length].
    destruct (positive_date a) as [d0|].
    + destruct (IH (set_add d0 dates) (NoDup_set_add _ _ Hnd)) as (? & Hel & Hlen).
      split_and!; [done| |].
      * intros d. rewrite Hel, elem_of_set_add, elem_of_cons. tauto.
      * pose proof (length_set_add d0 dates). lia.
    + destruct (IH dates Hnd) as (? & Hel & Hlen).
      split_and!; [done|done|lia].
Qed.

Lemma NoDup_activeDates (l : list Activity) : NoDup (activeDates l).
Proof. apply (foldl_add_active_date [] l), NoDup_nil_2. Qed.

Lemma elem_of_activeDates (l : list Activity) d :
  d ∈ activeDates l ↔ d ∈ omap positive_date l.
Proof.
  destruct (foldl_add_active_date [] l NoDup_nil_2) as (_ & Hel & _).
  unfold activeDates. rewrite Hel, elem_of_nil. tauto.
Qed.

Lemma length_activeDates_le (l : list Activity) :
  (length (activeDates l) ≤ length l)%nat.
Proof.
  destruct (foldl_add_active_date [] l NoDup_nil_2) as (_ & _ & Hlen).
  exact Hlen.
Qed.

(** The size of the set is the number of distinct dates added. *)
Lemma length_activeDates (l : list Activity) :
  length (activeDates l) = length (remove_dups (omap positive_date l)).
Proof.
  apply Permutation_length, NoDup_Permutation.
  - apply NoDup_activeDates.
  - apply NoDup_remove_dups.
  - intros d. by rewrite elem_of_activeDates, elem_of_remove_dups.
Qed.

Lemma member_entry_eq snaps cutoffDate userId (member : Member) :
  member_entry snaps cutoffDate userId member =
  mostRecent ← last (collectActivity cutoffDate userId snaps);
  Some {| s_name := name member;
          s_level := level member;
          s_days_in_faction := days_in_faction member;
          last_seen_timestamp := act_last_action_timestamp mostRecent;
          last_seen_relative := act_last_action_relative mostRecent;
          days_active :=
            length (activeDates (collectActivity cutoffDate userId snaps));
          total_polls := length (collectActivity cutoffDate userId snaps) |}.
Proof.
  unfold member_entry, summarize_member.
  destruct (last (collectActivity cutoffDate userId snaps)); cbn.
  - by rewrite lookup_insert_eq.
  - done.
Qed.

Lemma summarize_member_lookup snaps cutoffDate userId (member : Member)
    (summary : gmap string SummaryEntry) (u : string) :
  summarize_member snaps cutoffDate userId member summary !! u =
  if decide (u = userId)
  then match member_entry snaps cutoffDate userId member with
       | Some e => Some e
       | None => summary !! u
       end
  else summary !! u.
Proof.
  unfold member_entry, summarize_member.
  destruct (last (collectActivity cutoffDate userId snaps)); case_decide;
    simplify_map_eq; done.
Qed.

(** The loop over [membersData] writes, for each member, the entry its
    body computes, and nothing else. *)
Lemma getActivitySummary_lookup (g : Globals) (now days : Z) (u : string) :
  getActivitySummary g now days !! u =
  member ← membersData g !! u;
  member_entry (default [] (snapshots (activityData g)))
    (setDate_back now days) u member.
Proof.
  unfold getActivitySummary. cbv zeta. revert u.
  apply (map_fold_weak_ind (λ r (m : gmap string Member), ∀ u,
    r !! u = m !! u ≫= member_entry _ _ u)).
  - intros u. by rewrite !lookup_empty.
  - intros i x m r Hi IH u. rewrite summarize_member_lookup.
    case_decide as Hu.
    + subst u. rewrite lookup_insert_eq. cbn.
      destruct (member_entry _ _ i x); [done|].
      by rewrite IH, Hi.
    + by rewrite lookup_insert_ne, IH.
Qed.

Lemma getActivitySummary_Some (g : Globals) (now days : Z) (u : string) e :
  getActivitySummary g now days !! u = Some e ↔
  ∃ member mostRecent,
    membersData g !! u = Some member ∧
    last (collectActivity (setDate_back now days) u
            (default [] (snapshots (activityData g)))) = Some mostRecent ∧
    e = {| s_name := name member;
           s_level := level member;
           s_days_in_faction := days_in_faction member;
           last_seen_timestamp := act_last_action_timestamp mostRecent;
           last_seen_relative := act_last_action_relative mostRecent;
           days_active :=
             length (activeDates (collectActivity (setDate_back now days) u
                       (default [] (snapshots (activityData g)))));
           total_polls :=
             length (collectActivity (setDate_back now days) u
                       (default [] (snapshots (activityData g)))) |}.
Proof.
  rewrite getActivitySummary_lookup.
  destruct (membersData g !! u) as [member|]; cbn.
  - rewrite member_entry_eq.
    destruct (last _) as [mostRecent|]; cbn.
    + split.
      * intros [= <-]. eauto.
      * by intros (? & ? & [= <-] & [= <-] & ->).
    + split; [done|]. by intros (? & ? & _ & ? & _).
  - split; [done|]. by intros (? & ? & ? & _).
Qed.

End aggregator_facts.

(** ** Who appears in the summary *)

Section summary_properties.
Context `{!Host}.
Implicit Types (g : Globals) (e : SummaryEntry).

Lemma has_member_in_collect cutoffDate (u : string) (snaps : list Snapshot) :
  collectActivity cutoffDate u snaps ≠ [] ↔
  ∃ s, s ∈ snaps ∧ cutoffDate ≤ timestamp s ∧ has_member s u = true.
Proof.
  rewrite collectActivity_omap. split.
  - intros Hne. destruct (omap _ snaps) as [|a l] eqn:Heq; [done|].
    assert (a ∈ omap (snapshot_activity cutoffDate u) snaps) as Ha
      by (rewrite Heq; left).
    apply list_elem_of_omap in Ha as (s & Hs & Hsa).
    assert (is_Some (snapshot_activity cutoffDate u s)) as Hsome by eauto.
    apply snapshot_activity_is_Some in Hsome as [Hw Hm].
    exists s. split_and!; [done| |done].
    unfold in_window in Hw. apply negb_true_iff, Z.ltb_ge in Hw. done.
  - intros (s & Hs & Hw & Hm) Hnil.
    assert (is_Some (snapshot_activity cutoffDate u s)) as [a Ha].
    { apply snapshot_activity_is_Some. split; [|done].
      unfold in_window. apply negb_true_iff, Z.ltb_ge. done. }
    assert (a ∈ omap (snapshot_activity cutoffDate u) snaps) as Hin.
    { apply list_elem_of_omap. eauto. }
    rewrite Hnil in Hin. by apply elem_of_nil in Hin.
Qed.

Lemma summary_is_Some g (now days : Z) (u : string) :
  is_Some (getActivitySummary g now days !! u) ↔
  is_Some (membersData g !! u) ∧
  collectActivity (setDate_back now days) u
    (default [] (snapshots (activityData g))) ≠ [].
Proof.
  rewrite getActivitySummary_lookup.
  destruct (membersData g !! u) as [member|]; cbn.
  - rewrite member_entry_eq, <-last_is_Some.
    destruct (last _) as [mostRecent|]; cbn.
    + split; eauto.
    + split; [by intros [??]|]. by intros [_ [??]].
  - split; [by intros [??]|]. by intros [[??] _].
Qed.

(** C1, as amended: a member-id is in the result of [getActivitySummary]
    exactly when it is a key of the members dataset and some snapshot stamped
    no earlier than the cutoff (now minus [days] days) contains it; no upper
    end of the window is tested.  A member whose in-window list is empty has
    no entry. *)
Theorem summary_membership g (now days : Z) (u : string) :
  (is_Some (getActivitySummary g now days !! u) ↔
   is_Some (membersData g !! u) ∧
   ∃ s, s ∈ default [] (snapshots (activityData g)) ∧
        setDate_back now days ≤ timestamp s ∧ has_member s u = true) ∧
  (getActivitySummary g now days !! u = None ↔
   membersData g !! u = None ∨
   collectActivity (setDate_back now days) u
     (default [] (snapshots (activityData g))) = []).
Proof.
  split.
  - by rewrite <-has_member_in_collect, summary_is_Some.
  - rewrite eq_None_not_Some, summary_is_Some, eq_None_not_Some.
    destruct (decide (collectActivity (setDate_back now days) u
                        (default [] (snapshots (activityData g))) = []))
      as [Hnil|Hne].
    + split; [by right|]. intros _ [_ Hne]. by apply Hne.
    + split.
      * intros Hnot. left. intros Hsome. by apply Hnot.
      * intros [Hnone|Hnil] [Hsome _]; [by apply Hnone|by apply Hne].
Qed.

(** With no snapshot stamped after the reading of the clock, the window is
    the closed one, [[now - days, now]]. *)
Lemma summary_membership_no_later_snapshot g (now days : Z) (u : string) :
  Forall (λ s, timestamp s ≤ now) (default [] (snapshots (activityData g))) →
  is_Some (getActivitySummary g now days !! u) ↔
  is_Some (membersData g !! u) ∧
  ∃ s, s ∈ default [] (snapshots (activityData g)) ∧
       within_closed_window now days s ∧ has_member s u = true.
Proof.
  intros Hpast. rewrite Forall_forall in Hpast.
  rewrite summary_is_Some, has_member_in_collect. unfold within_closed_window.
  split; intros [Hmember (s & Hs & Hwin & Hhas)]; (split; [done|]); exists s.
  - split_and!; [done|done|by apply Hpast|done].
  - split_and!; [done|by destruct Hwin|done].
Qed.

(** C2: [total_polls] is the number of in-window snapshots that contain the
    member, and [days_active] does not exceed it. *)
Theorem total_polls_counts_snapshots g (now days : Z) (u : string) e :
  getActivitySummary g now days !! u = Some e →
  total_polls e =
    length (filter (λ s, in_window (setDate_back now days) s = true ∧
                         has_member s u = true)
              (default [] (snapshots (activityData g)))) ∧
  (days_active e ≤ total_polls e)%nat.
Proof.
  intros (member & mostRecent & _ & _ & ->)%getActivitySummary_Some. cbn.
  split.
  - apply length_collectActivity.
  - apply length_activeDates_le.
Qed.

(** C3: with the snapshots stored oldest first, the [last_seen] fields are
    those of the member's value in the last in-window snapshot containing
    the member: no such snapshot comes later in the sequence or is stamped
    later. *)
Theorem last_seen_from_latest_snapshot g (now days : Z) (u : string) e :
  oldest_first (default [] (snapshots (activityData g))) →
  getActivitySummary g now days !! u = Some e →
  ∃ (i : nat) (s : Snapshot) (v : JsValue),
    default [] (snapshots (activityData g)) !! i = Some s ∧
    in_window (setDate_back now days) s = true ∧
    members s !! u = Some v ∧ truthy v = true ∧
    (∀ (j : nat) (s' : Snapshot),
        default [] (snapshots (activityData g)) !! j = Some s' →
        in_window (setDate_back now days) s' = true →
        has_member s' u = true →
        (j ≤ i)%nat ∧ timestamp s' ≤ timestamp s) ∧
    last_seen_timestamp e = value_last_action_timestamp v ∧
    last_seen_relative e = value_last_action_relative v.
Proof.
  intros Hsorted (member & mostRecent & _ & Hlast & ->)%getActivitySummary_Some.
  rewrite collectActivity_omap in Hlast.
  apply last_omap_position in Hlast as (i & s & Hi & Hs & Hmax).
  apply snapshot_activity_Some in Hs as (Hw & v & Hv & Htruthy & ->).
  exists i, s, v. split_and!; [done|done|done|done| |reflexivity|reflexivity].
  intros j s' Hj Hw' Hm'.
  assert (j ≤ i)%nat as Hji.
  { apply (Hmax j s' Hj). apply snapshot_activity_is_Some. done. }
  split; [done|].
  assert (Reflexive (λ a b : Snapshot, timestamp a ≤ timestamp b)) as Hrefl
    by (intros x; lia).
  exact (StronglySorted_lookup_le _ _ j i s' s Hsorted Hj Hi Hji).
Qed.

(** C4, as amended: [days_active] is the number of distinct calendar dates
    of the in-window entries whose [last_action_timestamp] is positive.
    When no entry has a positive timestamp (all are 0, say) it is 0 while
    [total_polls] is positive, and entries that fall on one date count
    once. *)
Theorem days_active_counts_dates g (now days : Z) (u : string) e :
  getActivitySummary g now days !! u = Some e →
  let memberActivity :=
    collectActivity (setDate_back now days) u
      (default [] (snapshots (activityData g))) in
  days_active e = length (remove_dups (omap positive_date memberActivity)) ∧
  (Forall (λ a, act_last_action_timestamp a = Some 0) memberActivity →
   days_active e = 0%nat ∧ (0 < total_polls e)%nat) ∧
  (∀ d, Forall (λ a, positive_date a = Some d) memberActivity →
        days_active e = 1%nat ∧ total_polls e = length memberActivity).
Proof.
  intros (member & mostRecent & _ & Hlast & ->)%getActivitySummary_Some.
  cbn. set (l := collectActivity _ _ _) in *.
  assert (0 < length l)%nat as Hpos.
  { destruct l; [done|cbn; lia]. }
  rewrite length_activeDates. split_and!; [done| |].
  - intros Hzero. split; [|done].
    replace (omap positive_date l) with (@nil DateString); [done|].
    clear -Hzero. induction Hzero as [|a l Ha _ IH]; [done|].
    cbn. unfold positive_date at 1. rewrite Ha. cbn. exact IH.
  - intros d Hsame. split; [|done].
    assert (omap positive_date l = replicate (length l) d) as ->.
    { clear -Hsame. induction Hsame as [|a l Ha _ IH]; [done|].
      cbn. rewrite Ha. by f_equal. }
    clear -Hpos. destruct (length l) as [|n]; [lia|].
    clear Hpos. induction n as [|n IH]; [done|].
    change (replicate (S (S n)) d) with (d :: replicate (S n) d).
    cbn [remove_dups].
    destruct (decide_rel elem_of d (replicate (S n) d)) as [_|Hn]; [exact IH|].
    exfalso. apply Hn. cbn. left.
Qed.

(** With no negative [last_action_timestamp] in the member's list, the
    dates counted are those of the timestamps other than zero. *)
Lemma days_active_nonnegative_timestamps g (now days : Z) (u : string) e :
  getActivitySummary g now days !! u = Some e →
  Forall (λ a, ∀ t, act_last_action_timestamp a = Some t → 0 ≤ t)
    (collectActivity (setDate_back now days) u
       (default [] (snapshots (activityData g)))) →
  days_active e =
    length (remove_dups (omap nonzero_date
              (collectActivity (setDate_back now days) u
                 (default [] (snapshots (activityData g)))))).
Proof.
  intros (member & mostRecent & _ & _ & ->)%getActivitySummary_Some Hnonneg.
  cbn. rewrite length_activeDates. do 2 f_equal.
  induction Hnonneg as [|a l Ha _ IH]; [done|].
  cbn [omap list_omap]. rewrite IH.
  assert (positive_date a = nonzero_date a) as ->; [|done].
  unfold positive_date, nonzero_date.
  destruct (act_last_action_timestamp a) as [t|]; cbn; [|done].
  specialize (Ha t eq_refl).
  destruct (Z.ltb_spec 0 t), (Z.eqb_spec t 0); try done; lia.
Qed.

End summary_properties.

(** ** The member table *)

Lemma member_rows_entry (summary : gmap string SummaryEntry) (now : Z) (row : Row) :
  row ∈ member_rows summary now ↔
  ∃ u e, summary !! u = Some e ∧ row = member_row now (u, e).
Proof.
  unfold member_rows. rewrite list_elem_of_fmap. split.
  - intros ([u e] & -> & Hin). exists u, e. split; [|done].
    rewrite merge_sort_Permutation in Hin. by apply elem_of_map_to_list in Hin.
  - intros (u & e & Hue & ->). exists (u, e). split; [done|].
    rewrite merge_sort_Permutation. by apply elem_of_map_to_list.
Qed.

Lemma presence_cases (q : Q) :
  (presence (Some q) = ("status-active", "Online") ∧ (q < inject_Z 60)%Q) ∨
  (presence (Some q) = ("status-warning", "Today") ∧
     (inject_Z 60 <= q)%Q ∧ (q < inject_Z 1440)%Q) ∨
  (presence (Some q) = ("status-inactive", "Offline") ∧ (inject_Z 1440 <= q)%Q).
Proof.
  unfold presence, js_lt.
  destruct (Qlt_le_dec q (inject_Z 60)) as [Hlt|Hge]; [by left|].
  destruct (Qlt_le_dec q (inject_Z 1440)) as [Hlt'|Hge']; [right; by left|].
  right. by right.
Qed.

(** C5: every row of the member table carries exactly one of the labels
    Online, Today and Offline, the value of [presence] at the minutes elapsed
    since [last_seen_timestamp]: Online below 60, Today from 60 up to but
    not including 1440, Offline from 1440 on. *)
Theorem presence_partition (summary : gmap string SummaryEntry) (now : Z) (row : Row) :
  row ∈ member_rows summary now →
  ∃ e, summary !! row_userId row = Some e ∧
    (row_statusClass row, row_statusText row) =
      presence (minutesAgo now (last_seen_timestamp e)) ∧
    (row_statusText row = "Online" ∨ row_statusText row = "Today" ∨
     row_statusText row = "Offline") ∧
    ∀ t, last_seen_timestamp e = Some t →
      let elapsed := (inject_Z (now - t * 1000) / inject_Z 60000)%Q in
      (row_statusText row = "Online" ↔ (elapsed < inject_Z 60)%Q) ∧
      (row_statusText row = "Today" ↔
         (inject_Z 60 <= elapsed)%Q ∧ (elapsed < inject_Z 1440)%Q) ∧
      (row_statusText row = "Offline" ↔ (inject_Z 1440 <= elapsed)%Q).
Proof.
  intros (u & e & Hue & ->)%member_rows_entry. exists e. cbn.
  assert (inject_Z 60 < inject_Z 1440)%Q as Hbounds by reflexivity.
  split_and!; [done|by destruct (presence _)| |].
  - destruct (last_seen_timestamp e) as [t|]; cbn; [|auto].
    destruct (presence_cases (inject_Z (now - t * 1000) / inject_Z 60000))
      as [[-> _]|[[-> _]|[-> _]]]; cbn; auto.
  - intros t ->. cbn.
    destruct (presence_cases (inject_Z (now - t * 1000) / inject_Z 60000))
      as [[-> Hlt]|[[-> [Hge Hlt]]|[-> Hge]]]; cbn.
    + split_and!; split; try done.
      * intros [Hge _]. by apply Qlt_not_le in Hlt.
      * intros Hge. exfalso. apply (Qlt_not_le _ _ Hlt).
        apply Qle_trans with (inject_Z 1440); [by apply Qlt_le_weak|done].
    + split_and!; split; try done.
      * intros Hlt'. by apply Qlt_not_le in Hlt'.
      * intros Hge'. by apply Qlt_not_le in Hlt.
    + split_and!; split; try done.
      * intros Hlt. exfalso. apply (Qlt_not_le _ _ Hlt).
        apply Qle_trans with (inject_Z 1440); [by apply Qlt_le_weak|done].
      * intros [_ Hlt]. by apply Qlt_not_le in Hlt.
Qed.

(** ** Rendering the dashboard *)

Section rendering.
Context `{!Host}.

(** [renderDashboard] never throws, reads the two datasets and the selector,
    and writes the table, the panel and the "last updated" line. *)
Lemma renderDashboard_run (now : Z) (w : World) :
  ∃ w', renderDashboard now w = (Normal tt, w') ∧
    globals w' = globals w ∧ console w' = console w ∧
    timeRange (dom w') = timeRange (dom w) ∧
    match default [] (snapshots (activityData (globals w))) with
    | [] =>
        membersTable (dom w') = TablePlaceholder no_data_msg ∧
        summaryPanel (dom w') = PanelDashes ∧
        lastUpdated (dom w') = UpdatedLoading
    | firstSnap :: rest =>
        ∃ lastSnap totalMembers active24h,
          last (firstSnap :: rest) = Some lastSnap ∧
          summaryPanel (dom w') =
            PanelStats totalMembers active24h
              ((timestamp lastSnap - timestamp firstSnap) `div` 86400000 + 1)
              (timestamp lastSnap) ∧
          lastUpdated (dom w') = UpdatedAt (timestamp lastSnap) ∧
          membersTable (dom w') =
            match member_rows
                    (getActivitySummary (globals w) now (timeRange (dom w))) now with
            | [] => TablePlaceholder no_members_msg
            | rows => TableRows rows
            end
    end.
Proof.
  unfold renderDashboard, mbind, M_bind, gets. cbn beta iota.
  destruct (default [] (snapshots (activityData (globals w))))
    as [|firstSnap rest] eqn:Hsnaps.
  - cbn. eexists. split; [reflexivity|]. cbn. done.
  - rewrite decide_False by done.
    destruct (last (firstSnap :: rest)) as [lastSnap|] eqn:Hlast;
      [|by apply last_None in Hlast].
    unfold renderStats. rewrite Hlast. cbn [head].
    unfold renderMembers, mbind, M_bind, set_summaryPanel, set_lastUpdated,
      set_membersTable, modify. cbn beta iota.
    destruct (member_rows _ now) as [|row rows] eqn:Hrows.
    + eexists. split; [reflexivity|]. cbn. split_and!; try done.
      eexists _, _, _. split_and!; done.
    + eexists. split; [reflexivity|]. cbn. split_and!; try done.
      eexists _, _, _. split_and!; done.
Qed.

Lemma getActivitySummary_no_snapshots (g : Globals) (now days : Z) :
  default [] (snapshots (activityData g)) = [] →
  getActivitySummary g now days = ∅.
Proof.
  intros Hnil. apply map_eq. intros u.
  rewrite getActivitySummary_lookup, lookup_empty, Hnil.
  by destruct (membersData g !! u).
Qed.

(** C8: with at least one snapshot loaded, the "Data Logged" card shows
    floor((time of the last snapshot - time of the first) / 1 day) + 1, over
    all the snapshots, whatever day count is selected. *)
Theorem data_logged_full_span (now : Z) (w : World) (days : Z) :
  (0 < length (default [] (snapshots (activityData (globals w)))))%nat →
  ∃ firstSnap lastSnap,
    head (default [] (snapshots (activityData (globals w)))) = Some firstSnap ∧
    last (default [] (snapshots (activityData (globals w)))) = Some lastSnap ∧
    data_logged
      (summaryPanel (dom (renderDashboard now (select_timeRange days w)).2)) =
    Some ((timestamp lastSnap - timestamp firstSnap) `div` 86400000 + 1).
Proof.
  intros Hlen.
  destruct (renderDashboard_run now (select_timeRange days w))
    as (w' & -> & _ & _ & _ & Hdom).
  change (globals (select_timeRange days w)) with (globals w) in Hdom.
  destruct (default [] (snapshots (activityData (globals w))))
    as [|firstSnap rest]; [cbn in Hlen; lia|].
  destruct Hdom as (lastSnap & totalMembers & active24h & Hlast & Hpanel & _).
  exists firstSnap, lastSnap. split_and!; [done|done|].
  cbn [snd]. by rewrite Hpanel.
Qed.

(** C7: the list [showActivity] renders is the reverse of the in-window
    list the aggregator builds for the same member, selector value and
    reading of the clock, and the timeline shows one entry for each of its
    elements. *)
Theorem timeline_is_reversed_activity (w : World) (userId name : string) (now : Z) :
  let memberActivity :=
    collectActivity (setDate_back now (timeRange (dom w))) userId
      (default [] (snapshots (activityData (globals w)))) in
  showActivity_memberActivity (globals w) now (timeRange (dom w)) userId =
    reverse memberActivity ∧
  timeline (dom (showActivity userId name now w).2) =
    match memberActivity with
    | [] => TimelinePlaceholder no_activity_msg
    | _ => TimelineEntries (timeline_entry <$> reverse memberActivity)
    end.
Proof.
  cbv zeta. split; [reflexivity|].
  unfold showActivity, mbind, M_bind, gets. cbn beta iota.
  change (showActivity_memberActivity (globals w) now (timeRange (dom w)) userId)
    with (reverse (collectActivity (setDate_back now (timeRange (dom w))) userId
            (default [] (snapshots (activityData (globals w)))))).
  destruct (collectActivity _ _ _) as [|a l] using rev_ind; [done|].
  rewrite reverse_snoc. cbn.
  destruct l; done.
Qed.

(** Membership in a console given element by element. *)
Ltac logged :=
  first [apply list_elem_of_here
        |apply list_elem_of_further, list_elem_of_here].

(** C6: a load never lets an exception escape.  When no fetch throws, a
    response that is not [ok] leaves its dataset at the empty default and
    logs a warning, and the page is the one [renderDashboard] draws: no
    error is logged or shown; with the activity response not [ok] the
    summary is empty and the table shows the "no data yet" placeholder.
    When a fetch throws, the handler logs one error, puts the error message
    in the member table, and nothing else is drawn. *)
Theorem load_outcomes (d : Dom) (activity_json : Fetch ActivityData)
    (members_json : Fetch (gmap string Member)) (now : Z) :
  let r := initializeDashboard activity_json members_json now (page_load d) in
  r.1 = Normal tt ∧
  (fetch_throws activity_json || fetch_throws members_json = false →
     (∃ w, dom w = d ∧ r = renderDashboard now w) ∧
     filter is_error (console r.2) = [] ∧
     membersTable (dom r.2) ≠ TablePlaceholder error_loading_msg ∧
     (non_ok activity_json = true →
        activityData (globals r.2) = {| snapshots := None |} ∧
        (Warn, "No activity data found") ∈ console r.2 ∧
        getActivitySummary (globals r.2) now (timeRange d) = ∅ ∧
        membersTable (dom r.2) = TablePlaceholder no_data_msg ∧
        summaryPanel (dom r.2) = PanelDashes) ∧
     (non_ok members_json = true →
        membersData (globals r.2) = ∅ ∧
        (Warn, "No members data found") ∈ console r.2)) ∧
  (fetch_throws activity_json || fetch_throws members_json = true →
     membersTable (dom r.2) = TablePlaceholder error_loading_msg ∧
     filter is_error (console r.2) = [(Error, "Error loading data:")] ∧
     summaryPanel (dom r.2) = summaryPanel d ∧
     lastUpdated (dom r.2) = lastUpdated d ∧
     timeline (dom r.2) = timeline d).
Proof.
  cbv zeta. unfold initializeDashboard, try_catch.
  destruct activity_json as [ea|[oka [a|ea]]], members_json as [em|[okm [m|em]]];
    try destruct oka; try destruct okm;
    unfold await_fetch, await_json, mbind, M_bind, mret, M_ret, mthrow, M_throw,
      set_activityData, set_membersData, console_log, set_membersTable, modify;
    cbn -[renderDashboard getActivitySummary].
  all: try (split; [done|]; split; [done|]; intros _; by split_and!).
  all: match goal with
       | |- context [renderDashboard ?n ?w0] =>
           destruct (renderDashboard_run n w0) as (w' & Hrun & Hg & Hc & _ & Hdom);
           rewrite Hrun; cbn [fst snd]; cbn in Hg, Hc, Hdom
       end.
  all: split; [done|]; split; [|done]; intros _.
  all: rewrite Hc, Hg; cbn.
  all: split; [eexists; split; [|symmetry; exact Hrun]; done|].
  all: split; [done|].
  all: split;
    [match type of Hdom with
     | _ ∧ _ => destruct Hdom as (Ht & _); by rewrite Ht
     | _ =>
         destruct (default [] (snapshots _)) in Hdom;
           [destruct Hdom as (Ht & _); by rewrite Ht
           |destruct Hdom as (? & ? & ? & _ & _ & _ & Ht); rewrite Ht;
            by destruct (member_rows _ _)]
     end|].
  all: split; [|intros ?; first [done|split; [done|logged]]].
  all: intros ?; try done.
  all: destruct Hdom as (Ht & Hp & _).
  all: split_and!; [done|logged|by apply getActivitySummary_no_snapshots|done|done].
Qed.

Lemma presence_at_zero (now : Z) :
  86400000 ≤ now →
  presence (minutesAgo now (Some 0)) = ("status-inactive", "Offline").
Proof.
  intros Hnow.
  destruct (presence_cases (inject_Z (now - 0 * 1000) / inject_Z 60000))
    as [[_ Hlt]|[[_ [_ Hlt]]|[Heq _]]]; [| |exact Heq]; exfalso;
    revert Hlt; unfold Qlt; cbn; lia.
Qed.

(** When the member's last in-window entry has [last_action_timestamp] 0
    and an earlier one has a positive one, the 0 is what the summary
    carries, a day is counted, and the row reads Offline. *)
Lemma zero_last_seen (g : Globals) (now days : Z) (u : string)
    (earlier : list Activity) (a_early a_last : Activity) (t : Z) e :
  collectActivity (setDate_back now days) u
    (default [] (snapshots (activityData g))) = earlier ++ [a_last] →
  a_early ∈ earlier →
  act_last_action_timestamp a_early = Some t → 0 < t →
  act_last_action_timestamp a_last = Some 0 →
  86400000 ≤ now →
  getActivitySummary g now days !! u = Some e →
  last_seen_timestamp e = Some 0 ∧ (1 ≤ days_active e)%nat ∧
  ∃ row, row ∈ member_rows (getActivitySummary g now days) now ∧
         row_userId row = u ∧ row_statusText row = "Offline".
Proof.
  intros Hlist Hearly Ht Hpos Hlast Hnow He.
  pose proof He as (member & mostRecent & _ & Hmost & ->)%getActivitySummary_Some.
  rewrite Hlist in Hmost |- *. rewrite last_snoc in Hmost.
  injection Hmost as <-. cbn [last_seen_timestamp days_active].
  split_and!; [done| |].
  - assert (toLocaleDateString (t * 1000) ∈ activeDates (earlier ++ [a_last]))
      as Hin.
    { apply elem_of_activeDates, list_elem_of_omap. exists a_early. split.
      - apply elem_of_app. by left.
      - unfold positive_date. rewrite Ht. cbn.
        by rewrite (proj2 (Z.ltb_lt 0 t) Hpos). }
    destruct (activeDates (earlier ++ [a_last])); [by apply elem_of_nil in Hin|].
    cbn. lia.
  - eexists. split; [apply member_rows_entry; eauto|].
    cbn. rewrite Hlast. split; [done|]. by rewrite presence_at_zero.
Qed.

(** ** Falsy values in a snapshot's mapping *)

Lemma snapshot_activity_without_member cutoffDate (u u' : string) (s : Snapshot)
    (v : JsValue) :
  members s !! u = Some v → truthy v = false →
  snapshot_activity cutoffDate u' (without_member u s) =
  snapshot_activity cutoffDate u' s.
Proof.
  intros Hv Hfalsy. unfold snapshot_activity, has_member, in_window. cbn.
  destruct (decide (u' = u)) as [->|Hne].
  - rewrite lookup_delete_eq, Hv, Hfalsy. by rewrite !andb_false_r.
  - by rewrite lookup_delete_ne.
Qed.

Lemma snapshot_activity_falsy cutoffDate (u : string) (s : Snapshot) (v : JsValue) :
  members s !! u = Some v → truthy v = false →
  snapshot_activity cutoffDate u s = None.
Proof.
  intros Hv Hfalsy. unfold snapshot_activity, has_member.
  by rewrite Hv, Hfalsy, andb_false_r.
Qed.

Lemma showActivity_timeline (w : World) (userId name : string) (now : Z) :
  timeline (dom (showActivity userId name now w).2) =
  match timeline_entry <$>
          reverse (collectActivity (setDate_back now (timeRange (dom w))) userId
                     (default [] (snapshots (activityData (globals w))))) with
  | [] => TimelinePlaceholder no_activity_msg
  | html => TimelineEntries html
  end.
Proof.
  unfold showActivity, mbind, M_bind, gets. cbn beta iota.
  change (showActivity_memberActivity (globals w) now (timeRange (dom w)) userId)
    with (reverse (collectActivity (setDate_back now (timeRange (dom w))) userId
            (default [] (snapshots (activityData (globals w)))))).
  by destruct (timeline_entry <$> _).
Qed.

(** C10: a snapshot that maps the member-id to a falsy value counts as one
    without the member.  The summary is the one computed with the key
    deleted from that snapshot's mapping, the member's entry is the one
    computed with the snapshot left out, and the timeline of the member is
    the same in all three. *)
Theorem falsy_entry_ignored (w : World) (pre post : list Snapshot) (s : Snapshot)
    (u name : string) (v : JsValue) (now days : Z) :
  snapshots (activityData (globals w)) = Some (pre ++ s :: post) →
  members s !! u = Some v →
  truthy v = false →
  let w_deleted := with_snapshots (pre ++ without_member u s :: post) w in
  let w_removed := with_snapshots (pre ++ post) w in
  getActivitySummary (globals w) now days =
    getActivitySummary (globals w_deleted) now days ∧
  getActivitySummary (globals w) now days !! u =
    getActivitySummary (globals w_removed) now days !! u ∧
  showActivity_memberActivity (globals w) now days u =
    showActivity_memberActivity (globals w_removed) now days u ∧
  timeline (dom (showActivity u name now w).2) =
    timeline (dom (showActivity u name now w_deleted).2) ∧
  timeline (dom (showActivity u name now w).2) =
    timeline (dom (showActivity u name now w_removed).2).
Proof.
  intros Hsnaps Hv Hfalsy. cbv zeta.
  assert (∀ c u', collectActivity c u' (pre ++ s :: post) =
                  collectActivity c u' (pre ++ without_member u s :: post))
    as Hdeleted.
  { intros c u'. rewrite !collectActivity_omap, !omap_app. cbn [omap list_omap].
    by rewrite (snapshot_activity_without_member c u u' s v). }
  assert (∀ c, collectActivity c u (pre ++ s :: post) =
               collectActivity c u (pre ++ post)) as Hremoved.
  { intros c. rewrite !collectActivity_omap, !omap_app. cbn [omap list_omap].
    by rewrite (snapshot_activity_falsy c u s v). }
  split_and!.
  - apply map_eq. intros u'. rewrite !getActivitySummary_lookup. cbn.
    rewrite Hsnaps. cbn.
    destruct (membersData (globals w) !! u'); cbn; [|done].
    by rewrite !member_entry_eq, Hdeleted.
  - rewrite !getActivitySummary_lookup. cbn. rewrite Hsnaps. cbn.
    destruct (membersData (globals w) !! u); cbn; [|done].
    by rewrite !member_entry_eq, Hremoved.
  - change (reverse (collectActivity (setDate_back now days) u
              (default [] (snapshots (activityData (globals w))))) =
            reverse (collectActivity (setDate_back now days) u (pre ++ post))).
    by rewrite Hsnaps, <-Hremoved.
  - rewrite !showActivity_timeline. unfold with_snapshots.
    cbn [globals dom activityData snapshots]. rewrite Hsnaps.
    cbn [default from_option id]. by rewrite <-Hdeleted.
  - rewrite !showActivity_timeline. unfold with_snapshots.
    cbn [globals dom activityData snapshots]. rewrite Hsnaps.
    cbn [default from_option id]. by rewrite <-Hremoved.
Qed.

End rendering.

(** ** The properties on the sample pages *)

(** C1, as stated, fails: the only snapshot is stamped after the reading of
    the clock, outside [[now - 7 days, now]], and the member has an entry. *)
Lemma summary_membership_closed_window_fails :
  ¬ (is_Some (getActivitySummary (H:=utc_host) page_ahead now0 7 !! "u1") ↔
     is_Some (membersData page_ahead !! "u1") ∧
     ∃ s, s ∈ default [] (snapshots (activityData page_ahead)) ∧
          within_closed_window (H:=utc_host) now0 7 s ∧
          has_member s "u1" = true).
Proof.
  intros [Hin _].
  destruct Hin as (_ & s & Hs & [_ Hnow] & _).
  { eexists. vm_compute. reflexivity. }
  cbn in Hs. apply list_elem_of_singleton in Hs as ->.
  vm_compute in Hnow. by apply Hnow.
Qed.

Lemma total_polls_counts_snapshots_witness :
  getActivitySummary (H:=utc_host) page_two_polls now0 7 !! "u1"
    = Some entry_two_polls ∧
  total_polls entry_two_polls =
    length (filter (λ s, in_window (setDate_back (Host:=utc_host) now0 7) s = true ∧
                         has_member s "u1" = true)
              (default [] (snapshots (activityData page_two_polls)))) ∧
  (days_active entry_two_polls ≤ total_polls entry_two_polls)%nat.
Proof.
  split; [vm_compute; reflexivity|].
  apply (total_polls_counts_snapshots (H:=utc_host) page_two_polls now0 7 "u1").
  vm_compute. reflexivity.
Defined.

Lemma last_seen_from_latest_snapshot_witness :
  oldest_first (default [] (snapshots (activityData page_two_polls))) ∧
  ∃ (i : nat) (s : Snapshot) (v : JsValue),
    default [] (snapshots (activityData page_two_polls)) !! i = Some s ∧
    in_window (setDate_back (Host:=utc_host) now0 7) s = true ∧
    members s !! "u1" = Some v ∧ truthy v = true ∧
    (∀ (j : nat) (s' : Snapshot),
        default [] (snapshots (activityData page_two_polls)) !! j = Some s' →
        in_window (setDate_back (Host:=utc_host) now0 7) s' = true →
        has_member s' "u1" = true →
        (j ≤ i)%nat ∧ timestamp s' ≤ timestamp s) ∧
    last_seen_timestamp entry_two_polls = value_last_action_timestamp v ∧
    last_seen_relative entry_two_polls = value_last_action_relative v.
Proof.
  assert (oldest_first (default [] (snapshots (activityData page_two_polls))))
    as Hsorted.
  { change (StronglySorted (λ a b, timestamp a ≤ timestamp b)
              [poll (now0 - 7200000) (seen_at 1000);
               poll (now0 - 3600000) (seen_at 1000)]).
    repeat (apply SSorted_cons;
      [|repeat (apply Forall_cons_2; [cbn [timestamp poll]; lia|]);
        apply Forall_nil_2]).
    apply SSorted_nil. }
  split; [exact Hsorted|].
  apply (last_seen_from_latest_snapshot (H:=utc_host) page_two_polls now0 7 "u1");
    [exact Hsorted|vm_compute; reflexivity].
Defined.

(** C4, as stated, fails: the one entry has a [last_action_timestamp] other
    than zero, -86400, and [days_active] is 0, not 1. *)
Lemma days_active_nonzero_dates_fails :
  ∃ e, getActivitySummary (H:=utc_host) page_negative now0 7 !! "u1" = Some e ∧
       length (remove_dups (omap (nonzero_date (H:=utc_host))
                 (collectActivity (setDate_back (Host:=utc_host) now0 7) "u1"
                    (default [] (snapshots (activityData page_negative)))))) = 1%nat ∧
       days_active e = 0%nat.
Proof. eexists. split_and!; vm_compute; reflexivity. Qed.

Lemma days_active_counts_dates_witness :
  getActivitySummary (H:=utc_host) page_two_polls now0 7 !! "u1"
    = Some entry_two_polls ∧
  days_active entry_two_polls = 1%nat ∧
  total_polls entry_two_polls = 2%nat ∧
  days_active entry_two_polls =
    length (remove_dups (omap (positive_date (H:=utc_host))
              (collectActivity (setDate_back (Host:=utc_host) now0 7) "u1"
                 (default [] (snapshots (activityData page_two_polls)))))).
Proof.
  assert (getActivitySummary (H:=utc_host) page_two_polls now0 7 !! "u1"
            = Some entry_two_polls) as Hentry by (vm_compute; reflexivity).
  assert (collectActivity (setDate_back (Host:=utc_host) now0 7) "u1"
            (default [] (snapshots (activityData page_two_polls)))
          = [ {| act_timestamp := now0 - 7200000; act_spread := seen_at 1000 |};
              {| act_timestamp := now0 - 3600000; act_spread := seen_at 1000 |} ])
    as Hlist by (vm_compute; reflexivity).
  destruct (days_active_counts_dates (H:=utc_host) page_two_polls now0 7 "u1"
              entry_two_polls Hentry) as (Hcount & _ & Hsame).
  destruct (Hsame 0) as [Hdays Hpolls].
  { rewrite Hlist.
    repeat (apply Forall_cons_2; [vm_compute; reflexivity|]). apply Forall_nil_2. }
  rewrite Hlist in Hpolls.
  split_and!; [exact Hentry|exact Hdays|exact Hpolls|exact Hcount].
Defined.

Lemma presence_partition_witness :
  row_recent ∈ member_rows summary_recent now0 ∧
  ∃ e, summary_recent !! row_userId row_recent = Some e ∧
    (row_statusClass row_recent, row_statusText row_recent) =
      presence (minutesAgo now0 (last_seen_timestamp e)) ∧
    (row_statusText row_recent = "Online" ∨ row_statusText row_recent = "Today" ∨
     row_statusText row_recent = "Offline") ∧
    ∀ t, last_seen_timestamp e = Some t →
      let elapsed := (inject_Z (now0 - t * 1000) / inject_Z 60000)%Q in
      (row_statusText row_recent = "Online" ↔ (elapsed < inject_Z 60)%Q) ∧
      (row_statusText row_recent = "Today" ↔
         (inject_Z 60 <= elapsed)%Q ∧ (elapsed < inject_Z 1440)%Q) ∧
      (row_statusText row_recent = "Offline" ↔ (inject_Z 1440 <= elapsed)%Q).
Proof.
  assert (row_recent ∈ member_rows summary_recent now0) as Hrow.
  { vm_compute. apply list_elem_of_here. }
  split; [exact Hrow|].
  exact (presence_partition summary_recent now0 row_recent Hrow).
Defined.

(** C9: there is an input whose last in-window entry for a member has
    [last_action_timestamp] 0 while an earlier one has another value; the
    summary entry then has [last_seen_timestamp] 0 and [days_active] at
    least 1, and the member's row reads Offline. *)
Theorem zero_last_seen_exists :
  ∃ (g : Globals) (now days : Z) (u : string) (earlier : list Activity)
    (a_early a_last : Activity) (t : Z) (e : SummaryEntry) (row : Row),
    collectActivity (setDate_back (Host:=utc_host) now days) u
      (default [] (snapshots (activityData g))) = earlier ++ [a_last] ∧
    a_early ∈ earlier ∧
    act_last_action_timestamp a_early = Some t ∧ t ≠ 0 ∧
    act_last_action_timestamp a_last = Some 0 ∧
    getActivitySummary (H:=utc_host) g now days !! u = Some e ∧
    last_seen_timestamp e = Some 0 ∧ (1 ≤ days_active e)%nat ∧
    row ∈ member_rows (getActivitySummary (H:=utc_host) g now days) now ∧
    row_userId row = u ∧ row_statusText row = "Offline".
Proof.
  set (a1 := {| act_timestamp := now0 - 7200000; act_spread := seen_at 1699990000 |}).
  set (a2 := {| act_timestamp := now0 - 3600000; act_spread := seen_at 0 |}).
  assert (collectActivity (setDate_back (Host:=utc_host) now0 7) "u1"
            (default [] (snapshots (activityData page_zero_last)))
          = [a1] ++ [a2]) as Hlist by (vm_compute; reflexivity).
  assert (getActivitySummary (H:=utc_host) page_zero_last now0 7 !! "u1"
          = Some entry_zero_last) as Hentry by (vm_compute; reflexivity).
  destruct (zero_last_seen (H:=utc_host) page_zero_last now0 7 "u1" [a1] a1 a2
              1699990000 entry_zero_last)
    as (Hseen & Hdays & row & Hrow & Hid & Htext);
    [exact Hlist|apply list_elem_of_here|reflexivity|reflexivity|reflexivity
    |discriminate|exact Hentry|].
  exists page_zero_last, now0, 7, "u1", [a1], a1, a2, 1699990000,
    entry_zero_last, row.
  split_and!; [exact Hlist|apply list_elem_of_here|reflexivity|discriminate
              |reflexivity|exact Hentry|exact Hseen|exact Hdays|exact Hrow
              |exact Hid|exact Htext].
Qed.

Lemma load_outcomes_witness :
  let missing :=
    initializeDashboard (H:=utc_host) activity_missing members_loaded now0
      (page_load dom0) in
  let down :=
    initializeDashboard (H:=utc_host) network_down members_loaded now0
      (page_load dom0) in
  (missing.1 = Normal tt ∧
   (Warn, "No activity data found") ∈ console missing.2 ∧
   filter is_error (console missing.2) = [] ∧
   getActivitySummary (H:=utc_host) (globals missing.2) now0 (timeRange dom0) = ∅ ∧
   membersTable (dom missing.2) = TablePlaceholder no_data_msg) ∧
  (down.1 = Normal tt ∧
   membersTable (dom down.2) = TablePlaceholder error_loading_msg ∧
   filter is_error (console down.2) = [(Error, "Error loading data:")] ∧
   summaryPanel (dom down.2) = PanelStatic).
Proof.
  cbv zeta. split.
  - destruct (load_outcomes (H:=utc_host) dom0 activity_missing members_loaded now0)
      as (Hret & Hcompleted & _).
    destruct (Hcompleted eq_refl) as (_ & Hlog & _ & Hmissing & _).
    destruct (Hmissing eq_refl) as (_ & Hwarn & Hsummary & Htable & _).
    split_and!; [exact Hret|exact Hwarn|exact Hlog|exact Hsummary|exact Htable].
  - destruct (load_outcomes (H:=utc_host) dom0 network_down members_loaded now0)
      as (Hret & _ & Hthrown).
    destruct (Hthrown eq_refl) as (Htable & Hlog & Hpanel & _).
    split_and!; [exact Hret|exact Htable|exact Hlog|exact Hpanel].
Defined.

Lemma data_logged_full_span_witness :
  (0 < length (default [] (snapshots (activityData
                 (globals (world_of page_two_polls))))))%nat ∧
  ∃ firstSnap lastSnap,
    head (default [] (snapshots (activityData (globals (world_of page_two_polls)))))
      = Some firstSnap ∧
    last (default [] (snapshots (activityData (globals (world_of page_two_polls)))))
      = Some lastSnap ∧
    data_logged
      (summaryPanel
         (dom (renderDashboard (H:=utc_host) now0
                 (select_timeRange 30 (world_of page_two_polls))).2)) =
    Some ((timestamp lastSnap - timestamp firstSnap) `div` 86400000 + 1).
Proof.
  assert (0 < length (default [] (snapshots (activityData
                        (globals (world_of page_two_polls))))))%nat as Hloaded.
  { change (0 < 2)%nat. lia. }
  split; [exact Hloaded|].
  exact (data_logged_full_span (H:=utc_host) now0 (world_of page_two_polls) 30 Hloaded).
Defined.

Lemma falsy_entry_ignored_witness :
  let w := world_of (page polls_with_null) in
  let w_deleted :=
    with_snapshots [poll (now0 - 7200000) (seen_at 1000);
                    without_member "u1" (poll (now0 - 5400000) JNull);
                    poll (now0 - 3600000) (seen_at 1000)] w in
  let w_removed :=
    with_snapshots [poll (now0 - 7200000) (seen_at 1000);
                    poll (now0 - 3600000) (seen_at 1000)] w in
  members (poll (now0 - 5400000) JNull) !! "u1" = Some JNull ∧
  truthy JNull = false ∧
  getActivitySummary (H:=utc_host) (globals w) now0 7 =
    getActivitySummary (H:=utc_host) (globals w_deleted) now0 7 ∧
  getActivitySummary (H:=utc_host) (globals w) now0 7 !! "u1" =
    getActivitySummary (H:=utc_host) (globals w_removed) now0 7 !! "u1" ∧
  showActivity_memberActivity (H:=utc_host) (globals w) now0 7 "u1" =
    showActivity_memberActivity (H:=utc_host) (globals w_removed) now0 7 "u1" ∧
  timeline (dom (showActivity (H:=utc_host) "u1" "Ann" now0 w).2) =
    timeline (dom (showActivity (H:=utc_host) "u1" "Ann" now0 w_deleted).2) ∧
  timeline (dom (showActivity (H:=utc_host) "u1" "Ann" now0 w).2) =
    timeline (dom (showActivity (H:=utc_host) "u1" "Ann" now0 w_removed).2).
Proof.
  cbv zeta.
  assert (members (poll (now0 - 5400000) JNull) !! "u1" = Some JNull) as Hnull
    by apply lookup_singleton_eq.
  split; [exact Hnull|]. split; [reflexivity|].
  exact (falsy_entry_ignored (H:=utc_host) (world_of (page polls_with_null))
           [poll (now0 - 7200000) (seen_at 1000)]
           [poll (now0 - 3600000) (seen_at 1000)]
           (poll (now0 - 5400000) JNull) "u1" "Ann" JNull now0 7
           eq_refl Hnull eq_refl).
Defined.

(** ** More on the aggregator *)

Section aggregator_more.
Context `{!Host}.
Implicit Types (g : Globals) (e : SummaryEntry) (snaps : list Snapshot)
  (u : string).

Lemma omap_sublist {A B} (f1 f2 : A → option B) (l : list A) :
  (∀ x y, f1 x = Some y → f2 x = Some y) →
  omap f1 l `sublist_of` omap f2 l.
Proof.
  intros Hsub. induction l as [|x l IH]; [constructor|].
  cbn [omap list_omap]. destruct (f1 x) as [y|] eqn:Hf1.
  - rewrite (Hsub x y Hf1). by apply sublist_skip.
  - destruct (f2 x); [by apply sublist_cons|done].
Qed.

Lemma activeDates_sublist (l1 l2 : list Activity) :
  l1 `sublist_of` l2 → (length (activeDates l1) ≤ length (activeDates l2))%nat.
Proof.
  intros Hsub. apply submseteq_length, NoDup_submseteq; [apply NoDup_activeDates|].
  intros d. rewrite !elem_of_activeDates, !list_elem_of_omap.
  intros (a & Ha & Hd). exists a. split; [|done].
  eapply elem_of_submseteq; [exact Ha|by apply sublist_submseteq].
Qed.

Lemma snapshots_set_snapshots snaps g :
  default [] (snapshots (activityData (set_snapshots snaps g))) = snaps.
Proof. done. Qed.

(** Two pages with the same members whose loops collect the same lists
    have the same summary. *)
Lemma getActivitySummary_ext g g' (now days : Z) :
  membersData g = membersData g' →
  (∀ u, collectActivity (setDate_back now days) u
          (default [] (snapshots (activityData g))) =
        collectActivity (setDate_back now days) u
          (default [] (snapshots (activityData g')))) →
  getActivitySummary g now days = getActivitySummary g' now days.
Proof.
  intros Hmembers Hlists. apply map_eq. intros u.
  rewrite !getActivitySummary_lookup, Hmembers.
  destruct (membersData g' !! u); cbn; [|done].
  by rewrite !member_entry_eq, Hlists.
Qed.

(** X1: an entry of the summary belongs to a member of the members dataset
    and carries that member's name, level and days in faction. *)
Theorem summary_entry_copies_member g (now days : Z) u e :
  getActivitySummary g now days !! u = Some e →
  ∃ member, membersData g !! u = Some member ∧
    s_name e = name member ∧ s_level e = level member ∧
    s_days_in_faction e = days_in_faction member.
Proof.
  intros (member & mostRecent & Hmember & _ & ->)%getActivitySummary_Some.
  by exists member.
Qed.

(** X2: [total_polls] of an entry is at least 1 and at most the number of
    snapshots loaded. *)
Theorem total_polls_bounds g (now days : Z) u e :
  getActivitySummary g now days !! u = Some e →
  (1 ≤ total_polls e ≤ length (default [] (snapshots (activityData g))))%nat.
Proof.
  intros (member & mostRecent & _ & Hlast & ->)%getActivitySummary_Some. cbn.
  split.
  - destruct (collectActivity _ _ _); [done|cbn; lia].
  - rewrite length_collectActivity. apply length_filter.
Qed.

(** X3: a window that starts no later keeps every member of the summary,
    with at least as many polls and active days. *)
Theorem wider_window_keeps_members g (now days1 days2 : Z) u e2 :
  setDate_back now days1 ≤ setDate_back now days2 →
  getActivitySummary g now days2 !! u = Some e2 →
  ∃ e1, getActivitySummary g now days1 !! u = Some e1 ∧
    (total_polls e2 ≤ total_polls e1)%nat ∧
    (days_active e2 ≤ days_active e1)%nat.
Proof.
  intros Hcut (member & mostRecent & Hmember & Hlast & ->)%getActivitySummary_Some.
  assert (collectActivity (setDate_back now days2) u
            (default [] (snapshots (activityData g)))
          `sublist_of`
          collectActivity (setDate_back now days1) u
            (default [] (snapshots (activityData g)))) as Hsub.
  { rewrite !collectActivity_omap. apply omap_sublist. intros s a.
    rewrite !snapshot_activity_Some. intros (Hw & Hv). split; [|done].
    unfold in_window in *. rewrite negb_true_iff, Z.ltb_ge in Hw |- *. lia. }
  destruct (last (collectActivity (setDate_back now days1) u
              (default [] (snapshots (activityData g))))) as [mostRecent1|] eqn:Hlast1.
  - eexists. split.
    + apply getActivitySummary_Some. eauto.
    + cbn. split; [by apply sublist_length|by apply activeDates_sublist].
  - apply last_None in Hlast1. rewrite Hlast1 in Hsub.
    apply sublist_nil_r in Hsub. by rewrite Hsub in Hlast.
Qed.

Lemma collectActivity_filter_in_window cutoffDate u snaps :
  collectActivity cutoffDate u
    (filter (λ s, in_window cutoffDate s = true) snaps) =
  collectActivity cutoffDate u snaps.
Proof.
  rewrite !collectActivity_omap.
  induction snaps as [|s snaps IH]; [done|].
  rewrite filter_cons. cbn [omap list_omap]. case_decide as Hw.
  - cbn [omap list_omap]. by rewrite IH.
  - rewrite IH. unfold snapshot_activity.
    by destruct (in_window cutoffDate s).
Qed.

(** X4: the snapshots older than the cutoff play no part: the summary is
    the one of the in-window snapshots alone. *)
Theorem old_snapshots_ignored g (now days : Z) :
  getActivitySummary
    (set_snapshots
       (filter (λ s, in_window (setDate_back now days) s = true)
          (default [] (snapshots (activityData g)))) g) now days =
  getActivitySummary g now days.
Proof.
  apply getActivitySummary_ext; [done|]. intros u.
  exact (collectActivity_filter_in_window (setDate_back now days) u
           (default [] (snapshots (activityData g)))).
Qed.

(** X5: the entry of a member depends on that member's metadata and on the
    snapshots only: adding, replacing or removing another member leaves it
    as it is. *)
Theorem member_entries_independent g (now days : Z) u u' (m : Member) :
  u ≠ u' →
  getActivitySummary (set_members (<[u' := m]> (membersData g)) g) now days !! u =
    getActivitySummary g now days !! u ∧
  getActivitySummary (set_members (delete u' (membersData g)) g) now days !! u =
    getActivitySummary g now days !! u.
Proof.
  intros Hne. rewrite !getActivitySummary_lookup. cbn.
  by rewrite lookup_insert_ne, lookup_delete_ne.
Qed.

(** X6: [days_active] is 0 exactly when no in-window entry of the member
    has a positive [last_action_timestamp]. *)
Theorem days_active_zero_iff g (now days : Z) u e :
  getActivitySummary g now days !! u = Some e →
  days_active e = 0%nat ↔
  Forall (λ a, js_gt0 (act_last_action_timestamp a) = false)
    (collectActivity (setDate_back now days) u
       (default [] (snapshots (activityData g)))).
Proof.
  intros (member & mostRecent & _ & _ & ->)%getActivitySummary_Some. cbn.
  set (l := collectActivity _ _ _).
  assert (∀ a, positive_date a = None ↔ js_gt0 (act_last_action_timestamp a) = false)
    as Hnone.
  { intros a. unfold positive_date, js_gt0.
    destruct (act_last_action_timestamp a) as [t|]; cbn; [|done].
    by destruct (0 <? t). }
  split.
  - intros Hzero. apply nil_length_inv in Hzero.
    apply Forall_forall. intros a Ha. apply Hnone.
    destruct (positive_date a) as [d|] eqn:Hd; [|done].
    assert (d ∈ activeDates l) as Hin.
    { apply elem_of_activeDates, list_elem_of_omap. eauto. }
    rewrite Hzero in Hin. by apply elem_of_nil in Hin.
  - intros Hall. rewrite length_activeDates.
    replace (omap positive_date l) with (@nil DateString); [done|].
    induction Hall as [|a l' Ha _ IH]; [done|].
    cbn. apply Hnone in Ha. by rewrite Ha.
Qed.

(** X7: when the tracker appends a snapshot that is in the window and
    contains the member, the member's entry takes its [last_seen] fields
    from that snapshot and counts one poll more; [days_active] grows by at
    most one. *)
Theorem appended_snapshot_updates_entry g (now days : Z) u (member : Member)
    (s : Snapshot) (v : JsValue) :
  membersData g !! u = Some member →
  in_window (setDate_back now days) s = true →
  members s !! u = Some v →
  truthy v = true →
  let old := getActivitySummary g now days !! u in
  ∃ e', getActivitySummary
          (set_snapshots (default [] (snapshots (activityData g)) ++ [s]) g)
          now days !! u = Some e' ∧
    last_seen_timestamp e' = value_last_action_timestamp v ∧
    last_seen_relative e' = value_last_action_relative v ∧
    total_polls e' = S (from_option total_polls 0%nat old) ∧
    (from_option days_active 0%nat old ≤ days_active e'
       ≤ S (from_option days_active 0%nat old))%nat.
Proof.
  intros Hmember Hw Hv Htruthy. cbv zeta.
  set (l := collectActivity (setDate_back now days) u
              (default [] (snapshots (activityData g)))).
  set (a := {| act_timestamp := timestamp s; act_spread := v |}).
  assert (collectActivity (setDate_back now days) u
            (default [] (snapshots (activityData g)) ++ [s]) = l ++ [a]) as Happ.
  { unfold l. rewrite !collectActivity_omap, omap_app. cbn [omap list_omap].
    assert (snapshot_activity (setDate_back now days) u s = Some a) as ->; [|done].
    apply snapshot_activity_Some. eauto. }
  assert (from_option total_polls 0%nat (getActivitySummary g now days !! u)
          = length l ∧
          from_option days_active 0%nat (getActivitySummary g now days !! u)
          = length (activeDates l)) as [-> ->].
  { rewrite getActivitySummary_lookup, Hmember. cbn. rewrite member_entry_eq.
    fold l. destruct (last l) eqn:Hlast; cbn; [done|].
    apply last_None in Hlast. by rewrite Hlast. }
  rewrite getActivitySummary_lookup, snapshots_set_snapshots.
  change (membersData (set_snapshots _ g)) with (membersData g).
  rewrite Hmember. cbn [mbind option_bind].
  rewrite member_entry_eq, Happ, last_snoc. cbn [mbind option_bind].
  eexists. split; [reflexivity|].
  - cbn. rewrite length_app. cbn. split_and!; [done|done|lia| |].
    + apply activeDates_sublist, sublist_inserts_r. done.
    + unfold activeDates. rewrite foldl_app. cbn [foldl].
      rewrite add_active_date_positive.
      destruct (positive_date a); [apply length_set_add|lia].
Qed.

(** X8: [total_polls] and [days_active] do not depend on the order in which
    the snapshots are stored. *)
Theorem counts_invariant_under_reordering g (now days : Z) u e
    (snaps' : list Snapshot) :
  default [] (snapshots (activityData g)) ≡ₚ snaps' →
  getActivitySummary g now days !! u = Some e →
  ∃ e', getActivitySummary (set_snapshots snaps' g) now days !! u = Some e' ∧
    total_polls e' = total_polls e ∧ days_active e' = days_active e.
Proof.
  intros Hperm (member & mostRecent & Hmember & Hlast & ->)%getActivitySummary_Some.
  assert (collectActivity (setDate_back now days) u
            (default [] (snapshots (activityData g)))
          ≡ₚ collectActivity (setDate_back now days) u snaps') as Hlists.
  { rewrite !collectActivity_omap. by rewrite Hperm. }
  destruct (last (collectActivity (setDate_back now days) u snaps'))
    as [mostRecent'|] eqn:Hlast'.
  - rewrite getActivitySummary_lookup, snapshots_set_snapshots.
    change (membersData (set_snapshots _ g)) with (membersData g).
    rewrite Hmember. cbn [mbind option_bind].
    rewrite member_entry_eq, Hlast'. cbn [mbind option_bind].
    eexists. split; [reflexivity|].
    cbn. split; [by rewrite Hlists|].
    apply Permutation_length, NoDup_Permutation; try apply NoDup_activeDates.
    intros d. rewrite !elem_of_activeDates. by rewrite Hlists.
  - apply last_None in Hlast'. rewrite Hlast' in Hlists.
    apply Permutation_nil_r in Hlists. by rewrite Hlists in Hlast.
Qed.

End aggregator_more.

(** ** More on the renderer *)

Section renderer_more.
Context `{!Host}.
Implicit Types (w : World) (summary : gmap string SummaryEntry).

(** The page [renderDashboard] draws without snapshots. *)
Lemma renderDashboard_empty (now : Z) w :
  default [] (snapshots (activityData (globals w))) = [] →
  renderDashboard now w =
  (Normal tt,
   set_dom (λ d,
     {| membersTable := TablePlaceholder no_data_msg;
        summaryPanel := PanelDashes;
        lastUpdated := UpdatedLoading;
        timeRange := timeRange d; memberName := memberName d;
        timeline := timeline d;
        activityDetail_hidden := activityDetail_hidden d |}) w).
Proof.
  intros Hsnaps. unfold renderDashboard, mbind, M_bind, gets. cbn beta iota.
  rewrite Hsnaps. reflexivity.
Qed.

(** The page [renderDashboard] draws from at least one snapshot. *)
Lemma renderDashboard_nonempty (now : Z) w (firstSnap lastSnap : Snapshot)
    (rest : list Snapshot) :
  default [] (snapshots (activityData (globals w))) = firstSnap :: rest →
  last (firstSnap :: rest) = Some lastSnap →
  renderDashboard now w =
  (Normal tt,
   set_dom (λ d,
     {| membersTable :=
          match member_rows
                  (getActivitySummary (globals w) now (timeRange (dom w))) now with
          | [] => TablePlaceholder no_members_msg
          | rows => TableRows rows
          end;
        summaryPanel :=
          PanelStats
            (size (getActivitySummary (globals w) now (timeRange (dom w))))
            (length (filter
               (λ m, js_lt (minutesAgo now (last_seen_timestamp m)) (inject_Z 1440))
               (map_to_list
                  (getActivitySummary (globals w) now (timeRange (dom w)))).*2))
            ((timestamp lastSnap - timestamp firstSnap) `div` 86400000 + 1)
            (timestamp lastSnap);
        lastUpdated := UpdatedAt (timestamp lastSnap);
        timeRange := timeRange d; memberName := memberName d;
        timeline := timeline d;
        activityDetail_hidden := activityDetail_hidden d |}) w).
Proof.
  intros Hsnaps Hlast. unfold renderDashboard, mbind, M_bind, gets.
  cbn beta iota. rewrite Hsnaps. rewrite decide_False by done.
  unfold renderStats. rewrite Hlast. cbn [head].
  unfold renderMembers, mbind, M_bind, set_summaryPanel, set_lastUpdated,
    set_membersTable, modify. cbn beta iota.
  by destruct (member_rows _ now).
Qed.

Lemma table_rows_member_rows summary (now : Z) :
  table_rows match member_rows summary now with
             | [] => TablePlaceholder no_members_msg
             | rows => TableRows rows
             end = member_rows summary now.
Proof. by destruct (member_rows summary now). Qed.

Lemma summary_size_le_members (g : Globals) (now days : Z) :
  (size (getActivitySummary g now days) ≤ size (membersData g))%nat.
Proof.
  rewrite <-(size_dom (D:=gset string) (getActivitySummary g now days)).
  rewrite <-(size_dom (D:=gset string) (membersData g)).
  apply subseteq_size. intros u. rewrite !elem_of_dom.
  rewrite summary_is_Some. by intros [? _].
Qed.

Lemma length_member_rows summary (now : Z) :
  length (member_rows summary now) = size summary.
Proof.
  unfold member_rows. cbv zeta.
  by rewrite length_fmap, merge_sort_Permutation, length_map_to_list.
Qed.

(** X9: with snapshots loaded, the "Total Members" card is the size of the
    summary, which is at most the number of members; "Active (24h)" is at
    most "Total Members"; "Last Poll" and the "last updated" line show the
    time of the last snapshot of the array. *)
Theorem stats_cards (now : Z) w :
  (0 < length (default [] (snapshots (activityData (globals w)))))%nat →
  ∃ lastSnap totalMembers active24h loggedDays,
    last (default [] (snapshots (activityData (globals w)))) = Some lastSnap ∧
    summaryPanel (dom (renderDashboard now w).2) =
      PanelStats totalMembers active24h loggedDays (timestamp lastSnap) ∧
    lastUpdated (dom (renderDashboard now w).2) = UpdatedAt (timestamp lastSnap) ∧
    totalMembers = size (getActivitySummary (globals w) now (timeRange (dom w))) ∧
    (active24h ≤ totalMembers ≤ size (membersData (globals w)))%nat.
Proof.
  intros Hlen.
  destruct (default [] (snapshots (activityData (globals w))))
    as [|firstSnap rest] eqn:Hsnaps; [cbn in Hlen; lia|].
  destruct (last (firstSnap :: rest)) as [lastSnap|] eqn:Hlast;
    [|by apply last_None in Hlast].
  rewrite (renderDashboard_nonempty now w firstSnap lastSnap rest Hsnaps Hlast).
  eexists lastSnap, _, _, _. cbn [snd dom set_dom summaryPanel lastUpdated].
  split_and!; [done|reflexivity|done|done| |apply summary_size_le_members].
  etrans; [apply length_filter|].
  by rewrite length_fmap, length_map_to_list.
Qed.

(** X10: with the snapshots stored oldest first, "Data Logged" shows at
    least 1 day. *)
Theorem data_logged_at_least_one (now : Z) w :
  (0 < length (default [] (snapshots (activityData (globals w)))))%nat →
  oldest_first (default [] (snapshots (activityData (globals w)))) →
  ∃ loggedDays,
    data_logged (summaryPanel (dom (renderDashboard now w).2)) = Some loggedDays ∧
    1 ≤ loggedDays.
Proof.
  intros Hlen Hsorted.
  destruct (default [] (snapshots (activityData (globals w))))
    as [|firstSnap rest] eqn:Hsnaps; [cbn in Hlen; lia|].
  destruct (last (firstSnap :: rest)) as [lastSnap|] eqn:Hlast;
    [|by apply last_None in Hlast].
  rewrite (renderDashboard_nonempty now w firstSnap lastSnap rest Hsnaps Hlast).
  eexists. split; [reflexivity|].
  assert (timestamp firstSnap ≤ timestamp lastSnap) as Hle.
  { assert (Reflexive (λ a b : Snapshot, timestamp a ≤ timestamp b)) as Hrefl
      by (intros x; lia).
    rewrite last_lookup in Hlast.
    exact (StronglySorted_lookup_le _ _ 0 _ firstSnap lastSnap Hsorted
             eq_refl Hlast ltac:(lia)). }
  assert (0 ≤ (timestamp lastSnap - timestamp firstSnap) `div` 86400000)
    by (apply Z.div_pos; lia).
  lia.
Qed.

Lemma not_offline_iff (now : Z) (u : string) (e : SummaryEntry) :
  row_statusText (member_row now (u, e)) ≠ "Offline" ↔
  js_lt (minutesAgo now (last_seen_timestamp e)) (inject_Z 1440) = true.
Proof.
  cbn. unfold presence, js_lt.
  destruct (minutesAgo now (last_seen_timestamp e)) as [q|]; [|done].
  destruct (Qlt_le_dec q (inject_Z 60)) as [Hlt|Hge]; cbn.
  - destruct (Qlt_le_dec q (inject_Z 1440)) as [_|Hge']; [done|].
    exfalso. apply (Qlt_not_le _ _ Hlt).
    apply Qle_trans with (inject_Z 1440); [done|exact Hge'].
  - by destruct (Qlt_le_dec q (inject_Z 1440)).
Qed.

Lemma length_filter_fmap {A B} (f : A → B) (P : B → Prop)
    `{∀ y, Decision (P y)} (l : list A) :
  length (filter P (f <$> l)) = length (filter (λ x, P (f x)) l).
Proof.
  induction l as [|x l IH]; [done|].
  cbn [fmap list_fmap]. rewrite !filter_cons.
  destruct (decide (P (f x))); cbn; by rewrite IH.
Qed.

(** X11: "Active (24h)" is the number of rows of the member table whose
    label is not Offline. *)
Theorem active24h_counts_rows (now : Z) w :
  (0 < length (default [] (snapshots (activityData (globals w)))))%nat →
  ∃ totalMembers active24h loggedDays lastPoll,
    summaryPanel (dom (renderDashboard now w).2) =
      PanelStats totalMembers active24h loggedDays lastPoll ∧
    active24h =
      length (filter (λ row, row_statusText row ≠ "Offline")
                (table_rows (membersTable (dom (renderDashboard now w).2)))) ∧
    totalMembers =
      length (table_rows (membersTable (dom (renderDashboard now w).2))).
Proof.
  intros Hlen.
  destruct (default [] (snapshots (activityData (globals w))))
    as [|firstSnap rest] eqn:Hsnaps; [cbn in Hlen; lia|].
  destruct (last (firstSnap :: rest)) as [lastSnap|] eqn:Hlast;
    [|by apply last_None in Hlast].
  rewrite (renderDashboard_nonempty now w firstSnap lastSnap rest Hsnaps Hlast).
  eexists _, _, _, _. cbn [snd dom set_dom summaryPanel membersTable].
  split; [reflexivity|].
  rewrite table_rows_member_rows.
  set (summary := getActivitySummary (globals w) now (timeRange (dom w))).
  split; [|by rewrite length_member_rows].
  unfold member_rows. cbv zeta. rewrite !length_filter_fmap.
  rewrite merge_sort_Permutation.
  f_equal. apply list_filter_iff. intros [u e]. cbn [snd].
  rewrite not_offline_iff. by destruct (js_lt _ _).
Qed.

(** X12: the member table has one row for each entry of the summary, and no
    two rows carry the same member-id. *)
Theorem one_row_per_entry summary (now : Z) :
  row_userId <$> member_rows summary now ≡ₚ (map_to_list summary).*1 ∧
  NoDup (row_userId <$> member_rows summary now) ∧
  length (member_rows summary now) = size summary.
Proof.
  assert (row_userId <$> member_rows summary now ≡ₚ (map_to_list summary).*1)
    as Hperm.
  { unfold member_rows. cbv zeta. rewrite <-list_fmap_compose.
    rewrite merge_sort_Permutation.
    assert (row_userId ∘ member_row now <$> map_to_list summary
            = (map_to_list summary).*1) as ->; [|done].
    apply list_fmap_ext. by intros _ [u e] _. }
  split_and!; [done| |apply length_member_rows].
  rewrite Hperm. apply NoDup_fst_map_to_list.
Qed.

#[local] Instance seen_no_later_total : Total seen_no_later.
Proof.
  intros a b. unfold seen_no_later.
  destruct (last_seen_timestamp a.2), (last_seen_timestamp b.2); auto. lia.
Qed.

#[local] Instance seen_no_later_refl : Reflexive seen_no_later.
Proof.
  intros a. unfold seen_no_later. destruct (last_seen_timestamp a.2); [lia|done].
Qed.

(** Among entries that all have a timestamp the comparator is transitive,
    so a list sorted pair by pair is sorted throughout. *)
Lemma Sorted_seen_no_later (l : list (string * SummaryEntry)) :
  Forall (λ p, is_Some (last_seen_timestamp p.2)) l →
  Sorted seen_no_later l → StronglySorted seen_no_later l.
Proof.
  intros Hdef Hsorted. induction Hsorted as [|a l Hl IH Hhd]; [constructor|].
  apply Forall_cons in Hdef as [[ta Ha] Hdef]. specialize (IH Hdef).
  constructor; [done|].
  destruct Hhd as [|b l' Hab]; [constructor|].
  apply StronglySorted_cons in IH as [Hb _]. constructor; [done|].
  apply Forall_cons in Hdef as [[tb Hb'] Hdef'].
  rewrite Forall_forall in Hb, Hdef' |- *. intros c Hc.
  destruct (Hdef' c Hc) as [tc Hc']. specialize (Hb c Hc).
  unfold seen_no_later in *. rewrite Ha, ?Hb', ?Hc' in *. lia.
Qed.

Lemma presence_rank_mono (now ti tj : Z) :
  tj ≤ ti →
  (status_rank (presence (minutesAgo now (Some ti))).2 ≤
   status_rank (presence (minutesAgo now (Some tj))).2)%nat.
Proof.
  intros Hle. cbn [minutesAgo].
  assert (inject_Z (now - ti * 1000) / inject_Z 60000 <=
          inject_Z (now - tj * 1000) / inject_Z 60000)%Q as Hq.
  { unfold Qle. cbn. lia. }
  assert (inject_Z 60 <= inject_Z 1440)%Q as Hbounds by done.
  destruct (presence_cases (inject_Z (now - ti * 1000) / inject_Z 60000))
    as [[-> Hi]|[[-> [Hi Hi']]|[-> Hi]]];
  destruct (presence_cases (inject_Z (now - tj * 1000) / inject_Z 60000))
    as [[-> Hj]|[[-> [Hj Hj']]|[-> Hj]]]; cbn; try lia; exfalso.
  - apply (Qlt_not_le _ _ Hj). by apply Qle_trans with (2 := Hq).
  - apply (Qlt_not_le _ _ Hj). apply Qle_trans with (2 := Hq).
    by apply Qle_trans with (inject_Z 1440).
  - apply (Qlt_not_le _ _ Hj'). by apply Qle_trans with (2 := Hq).
Qed.

(** X13: when every entry of the summary has a [last_seen_timestamp], the
    rows come in the order Online, Today, Offline: no row stands above a row
    with a fresher label. *)
Theorem rows_ordered_by_presence summary (now : Z) (i j : nat) (ri rj : Row) :
  map_Forall (λ _ e, is_Some (last_seen_timestamp e)) summary →
  (i ≤ j)%nat →
  member_rows summary now !! i = Some ri →
  member_rows summary now !! j = Some rj →
  (status_rank (row_statusText ri) ≤ status_rank (row_statusText rj))%nat.
Proof.
  intros Hdef Hij Hi Hj. unfold member_rows in Hi, Hj. cbv zeta in Hi, Hj.
  apply list_lookup_fmap_Some in Hi as ([ui ei] & -> & Hi).
  apply list_lookup_fmap_Some in Hj as ([uj ej] & -> & Hj).
  assert (Forall (λ p, is_Some (last_seen_timestamp p.2))
            (merge_sort seen_no_later (map_to_list summary))) as Hall.
  { rewrite merge_sort_Permutation. apply map_Forall_to_list in Hdef.
    eapply Forall_impl; [exact Hdef|]. by intros [??]. }
  pose proof (Sorted_seen_no_later _ Hall (Sorted_merge_sort seen_no_later _))
    as Hsorted.
  pose proof (StronglySorted_lookup_le seen_no_later _ i j _ _ Hsorted Hi Hj Hij)
    as Hrel.
  rewrite Forall_forall in Hall.
  destruct (Hall (ui, ei)) as [ti Hti]; [by eapply list_elem_of_lookup_2|].
  destruct (Hall (uj, ej)) as [tj Htj]; [by eapply list_elem_of_lookup_2|].
  cbn in Hti, Htj. unfold seen_no_later in Hrel. cbn in Hrel.
  rewrite Hti, Htj in Hrel. cbn. rewrite Hti, Htj.
  by apply presence_rank_mono.
Qed.

(** X14: rendering is a full replacement: rendering the dashboard a second
    time at the same reading of the clock changes nothing. *)
Theorem renderDashboard_idempotent (now : Z) w :
  renderDashboard now (renderDashboard now w).2 = renderDashboard now w.
Proof.
  destruct (default [] (snapshots (activityData (globals w))))
    as [|firstSnap rest] eqn:Hsnaps.
  - rewrite (renderDashboard_empty now w Hsnaps). cbn [snd].
    rewrite renderDashboard_empty by exact Hsnaps. reflexivity.
  - destruct (last (firstSnap :: rest)) as [lastSnap|] eqn:Hlast;
      [|by apply last_None in Hlast].
    rewrite (renderDashboard_nonempty now w firstSnap lastSnap rest Hsnaps Hlast).
    cbn [snd].
    rewrite (renderDashboard_nonempty now _ firstSnap lastSnap rest)
      by (exact Hsnaps || exact Hlast).
    reflexivity.
Qed.

Lemma member_rows_nil summary (now : Z) :
  member_rows summary now = [] ↔ summary = ∅.
Proof.
  rewrite <-map_size_empty_iff, <-(length_member_rows summary now).
  split; [by intros ->|apply nil_length_inv].
Qed.

(** X15: after [renderDashboard] the table shows the "no data yet"
    placeholder exactly when no snapshot is loaded, "No members found"
    exactly when snapshots are loaded and the summary is empty, and rows
    otherwise; the stats panel shows dashes exactly when no snapshot is
    loaded. *)
Theorem table_states (now : Z) w :
  let snaps := default [] (snapshots (activityData (globals w))) in
  let summary := getActivitySummary (globals w) now (timeRange (dom w)) in
  let table := membersTable (dom (renderDashboard now w).2) in
  (table = TablePlaceholder no_data_msg ↔ snaps = []) ∧
  (table = TablePlaceholder no_members_msg ↔ snaps ≠ [] ∧ summary = ∅) ∧
  (table = TableRows (member_rows summary now) ↔ snaps ≠ [] ∧ summary ≠ ∅) ∧
  (summaryPanel (dom (renderDashboard now w).2) = PanelDashes ↔ snaps = []).
Proof.
  cbv zeta.
  destruct (default [] (snapshots (activityData (globals w))))
    as [|firstSnap rest] eqn:Hsnaps.
  - rewrite (renderDashboard_empty now w Hsnaps). cbn.
    split_and!; split; try done; by intros [? _].
  - destruct (last (firstSnap :: rest)) as [lastSnap|] eqn:Hlast;
      [|by apply last_None in Hlast].
    rewrite (renderDashboard_nonempty now w firstSnap lastSnap rest Hsnaps Hlast).
    cbn [snd dom set_dom membersTable summaryPanel].
    rewrite <-(member_rows_nil _ now).
    destruct (member_rows _ now) as [|row rows];
      split_and!; split; try done; by intros [_ ?].
Qed.

Lemma collectActivity_all_old cutoffDate (u : string) (snaps : list Snapshot) :
  Forall (λ s, timestamp s < cutoffDate) snaps →
  collectActivity cutoffDate u snaps = [].
Proof.
  intros Hold. rewrite collectActivity_omap.
  induction Hold as [|s l Hs _ IH]; [done|].
  cbn [omap list_omap]. rewrite IH. unfold snapshot_activity, in_window.
  by rewrite (proj2 (Z.ltb_lt _ _) Hs).
Qed.

(** X16: when snapshots are loaded and all of them are older than the
    cutoff, the summary is empty, the table shows "No members found", and
    the cards show 0 members, 0 active, and the span and last poll of the
    whole array. *)
Theorem all_snapshots_out_of_window (now : Z) w (firstSnap lastSnap : Snapshot) :
  head (default [] (snapshots (activityData (globals w)))) = Some firstSnap →
  last (default [] (snapshots (activityData (globals w)))) = Some lastSnap →
  Forall (λ s, timestamp s < setDate_back now (timeRange (dom w)))
    (default [] (snapshots (activityData (globals w)))) →
  getActivitySummary (globals w) now (timeRange (dom w)) = ∅ ∧
  membersTable (dom (renderDashboard now w).2) = TablePlaceholder no_members_msg ∧
  summaryPanel (dom (renderDashboard now w).2) =
    PanelStats 0 0
      ((timestamp lastSnap - timestamp firstSnap) `div` 86400000 + 1)
      (timestamp lastSnap).
Proof.
  intros Hhead Hlast Hold.
  assert (getActivitySummary (globals w) now (timeRange (dom w)) = ∅) as Hempty.
  { apply map_eq. intros u. rewrite getActivitySummary_lookup, lookup_empty.
    destruct (membersData (globals w) !! u); cbn; [|done].
    by rewrite member_entry_eq, collectActivity_all_old. }
  split; [done|].
  destruct (default [] (snapshots (activityData (globals w))))
    as [|firstSnap' rest] eqn:Hsnaps; [done|].
  injection Hhead as ->.
  rewrite (renderDashboard_nonempty now w firstSnap lastSnap rest Hsnaps Hlast).
  cbn [snd dom set_dom membersTable summaryPanel]. rewrite Hempty.
  by rewrite map_to_list_empty, map_size_empty.
Qed.

End renderer_more.

(** ** More on the detail panel and on the loader *)

Section detail_more.
Context `{!Host}.
Implicit Types (w : World).



(** X17: for a member of the summary the timeline has as many entries as
    the entry counts polls, and its first entry shows the "last seen" text
    of the member's row. *)
Theorem timeline_matches_summary w (userId name : string) (now : Z)
    (e : SummaryEntry) :
  getActivitySummary (globals w) now (timeRange (dom w)) !! userId = Some e →
  ∃ first rest,
    timeline (dom (showActivity userId name now w).2) =
      TimelineEntries (first :: rest) ∧
    length (first :: rest) = total_polls e ∧
    te_relative first = last_seen_relative e.
Proof.
  intros (member & mostRecent & _ & Hlast & ->)%getActivitySummary_Some.
  rewrite showActivity_timeline.
  apply last_Some in Hlast as [l' Hl']. rewrite Hl', reverse_snoc.
  exists (timeline_entry mostRecent), (timeline_entry <$> reverse l').
  split_and!; [done| |done].
  cbn. rewrite length_fmap, length_reverse, length_app. cbn. lia.
Qed.

Lemma collectActivity_sorted cutoffDate (u : string) (snaps : list Snapshot) :
  oldest_first snaps →
  StronglySorted (λ a b, act_timestamp a ≤ act_timestamp b)
    (collectActivity cutoffDate u snaps).
Proof.
  intros Hsorted. rewrite collectActivity_omap.
  induction Hsorted as [|s l Hl IH Hall]; [constructor|].
  cbn [omap list_omap].
  destruct (snapshot_activity cutoffDate u s) as [a|] eqn:Ha; [|done].
  constructor; [done|].
  apply snapshot_activity_Some in Ha as (_ & v & _ & _ & ->).
  rewrite Forall_forall in Hall. apply Forall_forall. intros b Hb.
  apply list_elem_of_omap in Hb as (s' & Hs' & Hb).
  apply snapshot_activity_Some in Hb as (_ & v' & _ & _ & ->). cbn. auto.
Qed.

Lemma StronglySorted_reverse_flip {A} (R : relation A) (l : list A) :
  StronglySorted R l → StronglySorted (flip R) (reverse l).
Proof.
  induction 1 as [|x l Hl IH Hall]; [constructor|].
  rewrite reverse_cons. apply StronglySorted_app. split_and!.
  - intros y z Hy ->%list_elem_of_singleton. unfold flip.
    rewrite Forall_forall in Hall. apply Hall. by apply elem_of_reverse.
  - done.
  - repeat constructor.
Qed.

(** X18: with the snapshots stored oldest first, the timeline runs from the
    newest poll to the oldest. *)
Theorem timeline_newest_first w (userId name : string) (now : Z) :
  oldest_first (default [] (snapshots (activityData (globals w)))) →
  StronglySorted (λ a b, te_time b ≤ te_time a)
    (timeline_entries (timeline (dom (showActivity userId name now w).2))).
Proof.
  intros Hsorted. rewrite showActivity_timeline.
  pose proof (StronglySorted_reverse_flip _ _
    (collectActivity_sorted (setDate_back now (timeRange (dom w))) userId _
       Hsorted)) as Hrev.
  apply (StronglySorted_fmap timeline_entry _
           (λ a b, te_time b ≤ te_time a)) in Hrev; [|by intros ??].
  by destruct (timeline_entry <$> _).
Qed.


(** X20: when both responses are [ok] and parse, both datasets are
    replaced by what was loaded, nothing is logged, and the page is the one
    [renderDashboard] draws from them. *)
Theorem load_success (d : Dom) (a : ActivityData) (m : gmap string Member)
    (now : Z) :
  let r := initializeDashboard
             (FetchResolves {| ok := true; json := Normal a |})
             (FetchResolves {| ok := true; json := Normal m |})
             now (page_load d) in
  r = renderDashboard now
        {| globals := {| activityData := a; membersData := m |};
           dom := d; console := [] |} ∧
  globals r.2 = {| activityData := a; membersData := m |} ∧
  console r.2 = [].
Proof.
  cbv zeta. unfold initializeDashboard, try_catch, await_fetch, await_json,
    mbind, M_bind, mret, M_ret, set_activityData, set_membersData, modify.
  cbn -[renderDashboard].
  destruct (renderDashboard_run now
              {| globals := {| activityData := a; membersData := m |};
                 dom := d; console := [] |})
    as (w' & -> & Hg & Hc & _).
  done.
Qed.


End detail_more.

(** ** The search box *)

Section search_box.
Variable toLowerCase : string → string.

Lemma append_cons (c : Ascii.ascii) (a b : string) :
  String.append (String c a) b = String c (String.append a b).
Proof. reflexivity. Qed.

Lemma append_assoc (a b c : string) :
  String.append (String.append a b) c = String.append a (String.append b c).
Proof.
  induction a as [|x a IH]; [reflexivity|].
  by rewrite !append_cons, IH.
Qed.

Lemma prefix_append (q s : string) :
  String.prefix q s = true ↔ ∃ b, s = String.append q b.
Proof.
  revert s. induction q as [|x q IH]; intros s.
  - split; [|by destruct s]. intros _. by exists s.
  - destruct s as [|y s]; cbn.
    + split; [done|]. by intros [b ?].
    + destruct (Ascii.ascii_dec x y) as [->|Hne].
      * rewrite IH. split; intros [b Hb]; exists b.
        -- by rewrite append_cons, <-Hb.
        -- rewrite append_cons in Hb. by injection Hb.
      * split; [done|]. intros [b Hb]. rewrite append_cons in Hb.
        injection Hb as ??. by destruct Hne.
Qed.

(** [includes] finds the query exactly when the name is the query with
    something before and something after it. *)
Lemma includes_append (s q : string) :
  includes s q = true ↔ ∃ a b, s = String.append a (String.append q b).
Proof.
  induction s as [|c s IH]; cbn [includes].
  - rewrite orb_false_r, prefix_append. split.
    + intros [b Hb]. by exists EmptyString, b.
    + intros (a & b & Hab). destruct a; [by exists b|done].
  - rewrite orb_true_iff, prefix_append, IH. split.
    + intros [[b Hb]|(a & b & Hab)].
      * by exists EmptyString, b.
      * exists (String c a), b. by rewrite append_cons, <-Hab.
    + intros (a & b & Hab). destruct a as [|c' a].
      * left. by exists b.
      * right. rewrite append_cons in Hab. injection Hab as _ Hab. eauto.
Qed.

Lemma includes_trans (s q q' : string) :
  includes s q = true → includes q q' = true → includes s q' = true.
Proof.
  rewrite !includes_append. intros (a & b & ->) (a' & b' & ->).
  exists (String.append a a'), (String.append b' b).
  by rewrite !append_assoc.
Qed.

(** X22: a row shown for a query is shown for every query that occurs in
    it (both in lower case): typing a longer query never brings a hidden
    row back. *)
Theorem shorter_query_shows_more (searchBox searchBox' : string)
    (table : TableContent) (i : nat) :
  includes (toLowerCase searchBox) (toLowerCase searchBox') = true →
  filterMembers toLowerCase searchBox table !! i = Some "" →
  filterMembers toLowerCase searchBox' table !! i = Some "".
Proof.
  intros Hsub. unfold filterMembers. cbv zeta.
  destruct table as [|msg|rows]; [done|done|].
  rewrite !list_lookup_fmap. destruct (rows !! i) as [row|]; cbn; [|done].
  destruct (includes (toLowerCase (row_name row)) (toLowerCase searchBox))
    eqn:Hshown; [|done].
  intros _. by rewrite (includes_trans _ _ _ Hshown Hsub).
Qed.

(** X23: with an empty search box every row is shown, whatever the
    names (the lower case of the empty string being the empty string). *)
Theorem empty_query_shows_all (table : TableContent) :
  toLowerCase "" = "" →
  filterMembers toLowerCase "" table = (λ _, "") <$> table_rows table.
Proof.
  intros Hempty. unfold filterMembers. cbv zeta. rewrite Hempty.
  destruct table as [|msg|rows]; [done|done|]. cbn [table_rows].
  apply list_fmap_ext. intros _ row _.
  assert (includes (toLowerCase (row_name row)) "" = true) as ->; [|done].
  apply includes_append. by exists "", (toLowerCase (row_name row)).
Qed.

End search_box.

(** ** The further properties on the sample pages *)

(** Sortedness of a list of polls given element by element. *)
Ltac polls_oldest_first :=
  repeat (apply SSorted_cons;
    [|repeat (apply Forall_cons_2;
        [cbn [timestamp poll]; unfold now0, ms_per_day; lia|]);
      apply Forall_nil_2]);
  apply SSorted_nil.

Lemma two_polls_entry :
  getActivitySummary (H:=utc_host) page_two_polls now0 7 !! "u1"
    = Some entry_two_polls.
Proof. vm_compute. reflexivity. Defined.

Lemma summary_entry_copies_member_witness :
  ∃ member, membersData page_two_polls !! "u1" = Some member ∧
    s_name entry_two_polls = name member ∧
    s_level entry_two_polls = level member ∧
    s_days_in_faction entry_two_polls = days_in_faction member.
Proof.
  exact (summary_entry_copies_member (H:=utc_host) page_two_polls now0 7 "u1"
           entry_two_polls two_polls_entry).
Defined.

Lemma total_polls_bounds_witness :
  (1 ≤ total_polls entry_two_polls
     ≤ length (default [] (snapshots (activityData page_two_polls))))%nat.
Proof.
  exact (total_polls_bounds (H:=utc_host) page_two_polls now0 7 "u1"
           entry_two_polls two_polls_entry).
Defined.

Lemma wider_window_keeps_members_witness :
  getActivitySummary (H:=utc_host) (page polls_month) now0 7 !! "u1"
    = Some entry_month_7 ∧
  getActivitySummary (H:=utc_host) (page polls_month) now0 30 !! "u1"
    = Some entry_month_30 ∧
  ∃ e1, getActivitySummary (H:=utc_host) (page polls_month) now0 30 !! "u1"
          = Some e1 ∧
    (total_polls entry_month_7 ≤ total_polls e1)%nat ∧
    (days_active entry_month_7 ≤ days_active e1)%nat.
Proof.
  assert (getActivitySummary (H:=utc_host) (page polls_month) now0 7 !! "u1"
          = Some entry_month_7) as H7 by (vm_compute; reflexivity).
  split_and!; [exact H7|vm_compute; reflexivity|].
  apply (wider_window_keeps_members (H:=utc_host) (page polls_month) now0 30 7
           "u1" entry_month_7); [|exact H7].
  vm_compute. discriminate.
Defined.

Lemma member_entries_independent_witness :
  getActivitySummary (H:=utc_host)
    (set_members (<["u2" := bob]> (membersData page_two_polls)) page_two_polls)
    now0 7 !! "u1" = Some entry_two_polls.
Proof.
  destruct (member_entries_independent (H:=utc_host) page_two_polls now0 7
              "u1" "u2" bob) as [Hinsert _]; [discriminate|].
  rewrite Hinsert. exact two_polls_entry.
Defined.

Lemma days_active_zero_iff_witness :
  days_active entry_two_polls = 0%nat ↔
  Forall (λ a, js_gt0 (act_last_action_timestamp a) = false)
    (collectActivity (setDate_back (Host:=utc_host) now0 7) "u1"
       (default [] (snapshots (activityData page_two_polls)))).
Proof.
  exact (days_active_zero_iff (H:=utc_host) page_two_polls now0 7 "u1"
           entry_two_polls two_polls_entry).
Defined.

Lemma appended_snapshot_updates_entry_witness :
  ∃ e', getActivitySummary (H:=utc_host)
          (set_snapshots
             (default [] (snapshots (activityData page_two_polls)) ++ [poll_fresh])
             page_two_polls) now0 7 !! "u1" = Some e' ∧
    last_seen_timestamp e' = Some 1699999000 ∧
    total_polls e' = 3%nat.
Proof.
  destruct (appended_snapshot_updates_entry (H:=utc_host) page_two_polls now0 7
              "u1" ann poll_fresh (seen_at 1699999000))
    as (e' & He' & Hseen & _ & Hpolls & _).
  - apply lookup_singleton_eq.
  - vm_compute. reflexivity.
  - apply lookup_singleton_eq.
  - reflexivity.
  - exists e'. rewrite two_polls_entry in Hpolls. by split_and!.
Defined.

Lemma counts_invariant_under_reordering_witness :
  ∃ e', getActivitySummary (H:=utc_host)
          (set_snapshots
             [poll (now0 - 3600000) (seen_at 1000);
              poll (now0 - 7200000) (seen_at 1000)] page_two_polls)
          now0 7 !! "u1" = Some e' ∧
    total_polls e' = total_polls entry_two_polls ∧
    days_active e' = days_active entry_two_polls.
Proof.
  apply (counts_invariant_under_reordering (H:=utc_host) page_two_polls now0 7
           "u1" entry_two_polls); [|exact two_polls_entry].
  change (default [] (snapshots (activityData page_two_polls)))
    with [poll (now0 - 7200000) (seen_at 1000);
          poll (now0 - 3600000) (seen_at 1000)].
  apply Permutation_swap.
Defined.

Lemma two_polls_loaded :
  (0 < length (default [] (snapshots (activityData
                 (globals (world_of page_two_polls))))))%nat.
Proof. change (0 < 2)%nat. lia. Defined.

Lemma two_polls_oldest_first :
  oldest_first (default [] (snapshots (activityData
                  (globals (world_of page_two_polls))))).
Proof.
  change (StronglySorted (λ a b, timestamp a ≤ timestamp b)
            [poll (now0 - 7200000) (seen_at 1000);
             poll (now0 - 3600000) (seen_at 1000)]).
  polls_oldest_first.
Defined.

Lemma stats_cards_witness :
  ∃ lastSnap totalMembers active24h loggedDays,
    last (default [] (snapshots (activityData (globals (world_of page_two_polls)))))
      = Some lastSnap ∧
    summaryPanel (dom (renderDashboard (H:=utc_host) now0
                         (world_of page_two_polls)).2) =
      PanelStats totalMembers active24h loggedDays (timestamp lastSnap) ∧
    lastUpdated (dom (renderDashboard (H:=utc_host) now0
                        (world_of page_two_polls)).2)
      = UpdatedAt (timestamp lastSnap) ∧
    totalMembers =
      size (getActivitySummary (H:=utc_host) (globals (world_of page_two_polls))
              now0 (timeRange (dom (world_of page_two_polls)))) ∧
    (active24h ≤ totalMembers
       ≤ size (membersData (globals (world_of page_two_polls))))%nat.
Proof.
  exact (stats_cards (H:=utc_host) now0 (world_of page_two_polls) two_polls_loaded).
Defined.

Lemma data_logged_at_least_one_witness :
  ∃ loggedDays,
    data_logged (summaryPanel (dom (renderDashboard (H:=utc_host) now0
                                      (world_of page_two_polls)).2))
      = Some loggedDays ∧
    1 ≤ loggedDays.
Proof.
  exact (data_logged_at_least_one (H:=utc_host) now0 (world_of page_two_polls)
           two_polls_loaded two_polls_oldest_first).
Defined.

Lemma active24h_counts_rows_witness :
  ∃ totalMembers active24h loggedDays lastPoll,
    summaryPanel (dom (renderDashboard (H:=utc_host) now0
                         (world_of page_two_polls)).2) =
      PanelStats totalMembers active24h loggedDays lastPoll ∧
    active24h =
      length (filter (λ row, row_statusText row ≠ "Offline")
                (table_rows (membersTable
                   (dom (renderDashboard (H:=utc_host) now0
                           (world_of page_two_polls)).2)))) ∧
    totalMembers =
      length (table_rows (membersTable
                (dom (renderDashboard (H:=utc_host) now0
                        (world_of page_two_polls)).2))).
Proof.
  exact (active24h_counts_rows (H:=utc_host) now0 (world_of page_two_polls)
           two_polls_loaded).
Defined.

Lemma rows_ordered_by_presence_witness :
  ∃ ri rj,
    member_rows summary_two now0 !! 0%nat = Some ri ∧
    member_rows summary_two now0 !! 1%nat = Some rj ∧
    row_statusText ri = "Online" ∧ row_statusText rj = "Offline" ∧
    (status_rank (row_statusText ri) ≤ status_rank (row_statusText rj))%nat.
Proof.
  assert (∃ ri rj,
    member_rows summary_two now0 !! 0%nat = Some ri ∧
    member_rows summary_two now0 !! 1%nat = Some rj ∧
    row_statusText ri = "Online" ∧ row_statusText rj = "Offline")
    as (ri & rj & Hi & Hj & Hri & Hrj).
  { eexists _, _. split_and!; vm_compute; reflexivity. }
  exists ri, rj. split_and!; [done|done|done|done|].
  apply (rows_ordered_by_presence summary_two now0 0 1 ri rj);
    [|lia|exact Hi|exact Hj].
  unfold summary_two. apply map_Forall_insert_2; [by eexists|].
  apply map_Forall_insert_2; [by eexists|]. apply map_Forall_empty.
Defined.

Lemma all_snapshots_out_of_window_witness :
  getActivitySummary (H:=utc_host) (page polls_stale) now0 7 = ∅ ∧
  membersTable (dom (renderDashboard (H:=utc_host) now0
                       (world_of (page polls_stale))).2)
    = TablePlaceholder no_members_msg ∧
  summaryPanel (dom (renderDashboard (H:=utc_host) now0
                       (world_of (page polls_stale))).2)
    = PanelStats 0 0 11 (now0 - 10 * ms_per_day).
Proof.
  exact (all_snapshots_out_of_window (H:=utc_host) now0
           (world_of (page polls_stale))
           (poll (now0 - 20 * ms_per_day) (seen_at 1698000000))
           (poll (now0 - 10 * ms_per_day) (seen_at 1698900000))
           eq_refl eq_refl
           ltac:(repeat (apply Forall_cons_2; [vm_compute; reflexivity|]);
                 apply Forall_nil_2)).
Defined.

Lemma timeline_matches_summary_witness :
  ∃ first rest,
    timeline (dom (showActivity (H:=utc_host) "u1" "Ann" now0
                     (world_of page_two_polls)).2)
      = TimelineEntries (first :: rest) ∧
    length (first :: rest) = total_polls entry_two_polls ∧
    te_relative first = last_seen_relative entry_two_polls.
Proof.
  exact (timeline_matches_summary (H:=utc_host) (world_of page_two_polls)
           "u1" "Ann" now0 entry_two_polls two_polls_entry).
Defined.

Lemma timeline_newest_first_witness :
  StronglySorted (λ a b, te_time b ≤ te_time a)
    (timeline_entries
       (timeline (dom (showActivity (H:=utc_host) "u1" "Ann" now0
                         (world_of page_two_polls)).2))).
Proof.
  exact (timeline_newest_first (H:=utc_host) (world_of page_two_polls)
           "u1" "Ann" now0 two_polls_oldest_first).
Defined.

Lemma shorter_query_shows_more_witness :
  filterMembers string_toLowerCase "AN" table_two_rows !! 0%nat = Some "" ∧
  filterMembers string_toLowerCase "a" table_two_rows !! 0%nat = Some "".
Proof.
  assert (filterMembers string_toLowerCase "AN" table_two_rows !! 0%nat = Some "")
    as Hshown by (vm_compute; reflexivity).
  split; [exact Hshown|].
  apply (shorter_query_shows_more string_toLowerCase "AN" "a" table_two_rows 0);
    [vm_compute; reflexivity|exact Hshown].
Defined.

Lemma empty_query_shows_all_witness :
  filterMembers string_toLowerCase "" table_two_rows = [""; ""].
Proof.
  exact (empty_query_shows_all string_toLowerCase table_two_rows eq_refl).
Defined.
